(** * analyze_pdf.py: a shallow embedding and its verification

    The script opens one PDF through PyPDF2, prints a fixed sequence of
    diagnostic lines and swallows every exception in one handler.  The
    embedding keeps three things explicit:

    - Python strings are sequences of Unicode code points, so that [len],
      slicing and [str.isalnum] count code points and not bytes;
    - standard output is an append-only log, one entry per [print] call
      that succeeded, carried through a state-and-exception monad in which
      the log survives a raised exception; a [print] whose text the stream
      cannot encode raises and writes nothing;
    - PyPDF2 and the file system are parameters of the development: every
      call into them yields either a value or a raised exception. *)

From Stdlib Require Import ZArith NArith String Ascii DecimalString SpecFloat.
From stdpp Require Import base list gmap.

Local Open Scope Z_scope.

(** ** Python values *)

Module Py.

(** A character is a code point; a [str] is a sequence of them. *)
Definition codepoint := N.
Abbreviation str := (list codepoint).

(** A literal of the source text (all literals of the script are ASCII). *)
Definition lit (s : string) : str := map N_of_ascii (list_ascii_of_string s).

(** [str(n)] for an [int]. *)
Definition str_of_int (n : Z) : str := lit (NilZero.string_of_int (Z.to_int n)).

(** [str(b)] for a [bool]. *)
Definition str_of_bool (b : bool) : str := if b then lit "True" else lit "False".

(** [s.startswith(p)] *)
Fixpoint startswith (p s : str) : bool :=
  match p, s with
  | [], _ => true
  | _ :: _, [] => false
  | a :: p', b :: s' => N.eqb a b && startswith p' s'
  end.

(** Exceptions caught by [except Exception as e]; the handler only uses
    [str(e)].  What open, parse and extraction raise is of this class;
    [KeyboardInterrupt] and [SystemExit], which are not, are left out. *)
Inductive exn := Exception (description : str).

Definition str_of_exn (e : exn) : str :=
  match e with Exception d => d end.

(** The outcome of evaluating an expression. *)
Inductive result (A : Type) :=
| Ok (a : A)
| Raise (e : exn).
Arguments Ok {A} a.
Arguments Raise {A} e.

(** *** Floats: IEEE 754 binary64 *)

Definition prec : Z := 53.
Definition emax : Z := 1024.
Abbreviation float := spec_float.

(** [float(n)] for an [int] that is a length or a literal, hence exact
    as a (possibly unnormalised) significand with exponent 0. *)
Definition float_of_int (n : Z) : float :=
  match n with
  | Z0 => S754_zero false
  | Zpos p => S754_finite false p 0
  | Zneg p => S754_finite true p 0
  end.

(** [a / b] on [int]s: the correctly rounded quotient, or
    [ZeroDivisionError]. *)
Definition int_truediv (a b : Z) : result float :=
  if b =? 0 then Raise (Exception (lit "division by zero"))
  else Ok (SFdiv prec emax (float_of_int a) (float_of_int b)).

(** [x * n] for a float [x] and an [int] [n]. *)
Definition float_mul_int (x : float) (n : Z) : float :=
  SFmul prec emax x (float_of_int n).

(** Round the non-negative rational [num / den] to the nearest integer,
    ties to even. *)
Definition round_half_even (num den : Z) : Z :=
  let q := num / den in
  let r := num mod den in
  match Z.compare (2 * r) den with
  | Lt => q
  | Gt => q + 1
  | Eq => if Z.even q then q else q + 1
  end.

(** [format(x, '.1f')]: the exact value of [x], rounded to one decimal
    digit, ties to even. *)
Definition format_1f (x : float) : str :=
  let sign (s : bool) : str := if s then lit "-" else [] in
  match x with
  | S754_nan => lit "nan"
  | S754_infinity s => sign s ++ lit "inf"
  | S754_zero s => sign s ++ lit "0.0"
  | S754_finite s m e =>
      let tenths :=
        match e with
        | Zneg k => round_half_even (Zpos m * 10) (2 ^ Zpos k)
        | _ => Zpos m * 10 * 2 ^ e
        end in
      sign s ++ str_of_int (tenths / 10) ++ lit "." ++ str_of_int (tenths mod 10)
  end.

(** *** [str.isalnum] on one character

    The ASCII range is written out; outside it the answer is a table of
    the Unicode character database, taken as a parameter. *)
Definition ascii_isalnum (c : codepoint) : bool :=
  ((48 <=? c) && (c <=? 57) || (65 <=? c) && (c <=? 90)
   || (97 <=? c) && (c <=? 122))%N.

(** [str.isspace] on one ASCII character. *)
Definition ascii_isspace (c : codepoint) : bool :=
  ((9 <=? c) && (c <=? 13) || (28 <=? c) && (c <=? 32))%N.

End Py.
Export Py.

(** ** Effects: standard output and calls into the library

    A computation reads and extends the world and either returns a value
    or raises.  What was printed before a [Raise] stays printed. *)

Record world := World {
  stdout : list str;          (* one entry per [print] call, oldest first *)
  extract_text_calls : nat    (* how often [extract_text] was invoked *)
}.

Definition emit (lines : list str) (w : world) : world :=
  {| stdout := stdout w ++ lines;
     extract_text_calls := extract_text_calls w |}.

Definition tick (w : world) : world :=
  {| stdout := stdout w; extract_text_calls := S (extract_text_calls w) |}.

Definition M (A : Type) : Type := world -> result A * world.

#[global] Instance M_ret : MRet M := fun A (a : A) w => (Ok a, w).

#[global] Instance M_bind : MBind M := fun A B (k : A -> M B) (m : M A) w =>
  match m w with
  | (Ok a, w') => k a w'
  | (Raise e, w') => (Raise e, w')
  end.

(** Evaluate an expression whose outcome the library decides. *)
Definition call {A} (r : result A) : M A := fun w => (r, w).

(** [try: body  except Exception as e: handler(e)]; what the handler
    raises is raised by the statement. *)
Definition try_except {A} (body : M A) (handler : exn -> M A) : M A := fun w =>
  match body w with
  | (Ok a, w') => (Ok a, w')
  | (Raise e, w') => handler e w'
  end.

(** [sys.stdout]: an open text stream with an encoding, on a device that
    takes what is written to it.  Every encoding in use has the ASCII
    characters; [encodes] says which other code points it has, and
    [encode_error] is the [UnicodeEncodeError] it raises for a text it
    cannot encode. *)
Record stream := Stream {
  encodes : codepoint -> bool;
  encode_error : str -> exn
}.

(** The stream can encode the whole text. *)
Definition writable (out : stream) (s : str) : bool :=
  forallb (fun c => (c <? 128)%N || encodes out c) s.

(** [print(s, file=out)]: the text is encoded as a whole; either it
    becomes one more entry of the log, or the encoder raises and nothing
    of it is written. *)
Definition print_to (out : stream) (s : str) : M unit := fun w =>
  if writable out s then (Ok tt, emit [s] w)
  else (Raise (encode_error out s), w).

(** ** PyPDF2 objects, as far as the script looks at them *)

Record PageObject := {
  extract_text : result str
}.

Record PdfReader := {
  pages : result (list PageObject);
  is_encrypted : result bool;
  metadata : result (option (gmap str str))
}.

(** [page.extract_text()]: a call, counted in the world. *)
Definition call_extract_text (page : PageObject) : M str := fun w =>
  (extract_text page, tick w).

(** [len(reader.pages)] *)
Definition len_pages (reader : PdfReader) : M Z :=
  ps ← call (pages reader); mret (Z.of_nat (length ps)).

(** [reader.pages[0]] *)
Definition pages_0 (reader : PdfReader) : M PageObject :=
  ps ← call (pages reader);
  match ps with
  | p :: _ => mret p
  | [] => call (Raise (Exception (lit "sequence index out of range")))
  end.

(** Truth value of [reader.metadata]: [None] and the empty mapping are
    false. *)
Definition truthy (md : option (gmap str str)) : bool :=
  match md with
  | None => false
  | Some m => negb (size m =? 0)%nat
  end.

(** [reader.metadata.get(key, default)] *)
Definition metadata_get (reader : PdfReader) (key dflt : str) : M str :=
  md ← call (metadata reader);
  match md with
  | Some m => mret (default dflt (m !! key))
  | None => call (Raise (Exception
              (lit "'NoneType' object has no attribute 'get'")))
  end.

(** ** Reading the printed lines *)

Definition is_error_line (l : str) : bool :=
  startswith (lit "Error analyzing PDF: ") l.

Definition is_metadata_line (l : str) : bool :=
  startswith (lit "PDF Version: ") l
  || startswith (lit "Creator: ") l
  || startswith (lit "Producer: ") l.

(** The four lines about the first page; the last of them is either the
    labelled ratio or the bare [0%]. *)
Definition is_first_page_line (l : str) : bool :=
  startswith (lit "First page text length: ") l
  || startswith (lit "First page text preview: ") l
  || startswith (lit "Non-whitespace characters: ") l
  || startswith (lit "Text quality ratio: ") l
  || bool_decide (l = lit "0%").

(** A line that is neither a metadata field line nor [No metadata found]. *)
Definition after_metadata (l : str) : bool :=
  negb (is_metadata_line l) && negb (bool_decide (l = lit "No metadata found")).

(** The lines of a run up to and including the encryption flag. *)
Definition header_lines (pdf_path : str) (n : Z) (enc : bool) : list str :=
  [ lit "=== PDF Analysis ===";
    lit "File: " ++ pdf_path;
    lit "Pages: " ++ str_of_int n;
    lit "Is Encrypted: " ++ str_of_bool enc ].

(** The lines of the metadata step. *)
Definition metadata_lines (md : option (gmap str str)) : list str :=
  match md with
  | Some m =>
      if (size m =? 0)%nat then [ lit "No metadata found" ]
      else [ lit "PDF Version: " ++ default (lit "Unknown") (m !! lit "/PDF");
             lit "Creator: " ++ default (lit "Unknown") (m !! lit "/Creator");
             lit "Producer: " ++ default (lit "Unknown") (m !! lit "/Producer") ]
  | None => [ lit "No metadata found" ]
  end.

(** What the body of the [try] does to the world, in order: it prints a
    line or it calls [extract_text]. *)
Inductive event :=
| Print (s : str)
| Extract.

(** The lines among the events, and the number of calls. *)
Fixpoint prints (tr : list event) : list str :=
  match tr with
  | [] => []
  | Print s :: tr' => s :: prints tr'
  | Extract :: tr' => prints tr'
  end.

Fixpoint extracts (tr : list event) : nat :=
  match tr with
  | [] => 0%nat
  | Print _ :: tr' => extracts tr'
  | Extract :: tr' => S (extracts tr')
  end.

(** The world after all of the events took place. *)
Definition after (tr : list event) (w : world) : world :=
  {| stdout := stdout w ++ prints tr;
     extract_text_calls := extracts tr + extract_text_calls w |}.

(** The events one after the other on a stream, up to the first line the
    stream cannot encode; [fin] is how the body ends when every line
    could be written. *)
Fixpoint play (out : stream) (tr : list event) (fin : result unit)
    (w : world) : result unit * world :=
  match tr with
  | [] => (fin, w)
  | Print s :: tr' =>
      if writable out s then play out tr' fin (emit [s] w)
      else (Raise (encode_error out s), w)
  | Extract :: tr' => play out tr' fin (tick w)
  end.

(** ** Sample streams and documents

    Two encodings for standard output, a small file system and the readers
    PyPDF2 would build on it, used to run the script on concrete inputs. *)

Module Demo.

(** The number of leading characters of [s] that satisfy [p]. *)
Fixpoint span (p : codepoint -> bool) (s : str) : nat :=
  match s with
  | c :: s' => if p c then S (span p s') else 0%nat
  | [] => 0%nat
  end.

Definition hex_digit (d : N) : codepoint :=
  (if d <? 10 then 48 + d else 87 + d)%N.

Fixpoint hex (width : nat) (n : N) : str :=
  match width with
  | O => []
  | S k => hex k (n / 16)%N ++ [hex_digit (n mod 16)%N]
  end.

(** The character as the message of a [UnicodeEncodeError] shows it. *)
Definition escaped (c : codepoint) : str :=
  if (c <? 256)%N then [92; 120]%N ++ hex 2 c
  else if (c <? 65536)%N then [92; 117]%N ++ hex 4 c
  else [92; 85]%N ++ hex 8 c.

(** [str(e)] for the [UnicodeEncodeError] of a codec: the first run of
    characters the codec does not have, and the reason it gives. *)
Definition codec_error (name reason : str) (has : codepoint -> bool)
    (s : str) : exn :=
  let ok c := ((c <? 128)%N || has c) in
  let start := span ok s in
  let run := span (fun c => negb (ok c)) (drop start s) in
  let position :=
    if (run <=? 1)%nat then
      lit " codec can't encode character '" ++ escaped (nth start s 0%N)
        ++ lit "' in position " ++ str_of_int (Z.of_nat start)
    else
      lit " codec can't encode characters in position "
        ++ str_of_int (Z.of_nat start) ++ lit "-"
        ++ str_of_int (Z.of_nat (start + run - 1)) in
  Exception (lit "'" ++ name ++ lit "'" ++ position ++ lit ": " ++ reason).

Definition is_surrogate (c : codepoint) : bool :=
  ((55296 <=? c) && (c <=? 57343))%N.

(** UTF-8 with strict error handling: everything but lone surrogates. *)
Definition utf8 : stream :=
  {| encodes := fun c => negb (is_surrogate c);
     encode_error :=
       codec_error (lit "utf-8") (lit "surrogates not allowed")
         (fun c => negb (is_surrogate c)) |}.

(** Latin-1: the code points below 256. *)
Definition latin1 : stream :=
  {| encodes := fun c => (c <? 256)%N;
     encode_error :=
       codec_error (lit "latin-1") (lit "ordinal not in range(256)")
         (fun c => (c <? 256)%N) |}.

Definition page (t : result str) : PageObject := {| extract_text := t |}.

Definition document (ps : list PageObject) (md : option (gmap str str))
  : PdfReader :=
  {| pages := Ok ps; is_encrypted := Ok false; metadata := Ok md |}.

(** An information dictionary without [/Creator] and without [/PDF]. *)
Definition info : gmap str str := {[ lit "/Producer" := lit "pdfTeX-1.40" ]}.

(** An information dictionary whose creator is written in Chinese
    (U+4E2D U+6587). *)
Definition info_cjk : gmap str str :=
  {[ lit "/Creator" := [20013; 25991]%N ]}.

(** 250 characters outside ASCII: 150 times U+00E9, then 100 times U+20AC. *)
Definition long_text : str := repeat 233%N 150 ++ repeat 8364%N 100.

(** Exactly 200 characters, and the same followed by more. *)
Definition text_200 : str := repeat 120%N 200.
Definition text_204 : str := text_200 ++ lit "tail".

(** One character, the lone surrogate U+D800, and 201 characters that
    start with it. *)
Definition lone_surrogate : str := [55296%N].
Definition surrogate_201 : str := 55296%N :: text_200.

(** A description with a lone surrogate in it. *)
Definition bad_stream : exn :=
  Exception (lit "bad " ++ [55296%N] ++ lit " stream").

(** File names outside ASCII: U+7A7A, and an undecodable byte kept as the
    lone surrogate U+DCFF. *)
Definition name_cjk : str := [31354%N] ++ lit ".pdf".
Definition name_surrogate : str := lit "a" ++ [56575%N] ++ lit ".pdf".
(** A name that is not in the file system: U+62A5 U+544A. *)
Definition name_missing : str := [25253; 21578]%N ++ lit ".pdf".

Definition abc : PdfReader :=
  document [page (Ok (lit "abc123  ###"))] (Some info).
Definition empty : PdfReader := document [] None.
Definition blank : PdfReader := document [page (Ok [])] (Some ∅).
Definition long : PdfReader := document [page (Ok long_text)] None.
Definition x200 : PdfReader := document [page (Ok text_200)] None.
Definition x204 : PdfReader := document [page (Ok text_204)] None.
Definition symbols : PdfReader := document [page (Ok (lit "#@"))] (Some info).
Definition broken : PdfReader :=
  document [page (Raise (Exception (lit "cannot decode stream")))] (Some info).
Definition garbled : PdfReader := document [page (Raise bad_stream)] (Some info).
Definition lone : PdfReader := document [page (Ok lone_surrogate)] None.
Definition lone_201 : PdfReader := document [page (Ok surrogate_201)] None.
Definition cjk : PdfReader := document [page (Ok (lit "abc"))] (Some info_cjk).

Definition files : list (str * PdfReader) :=
  [ (lit "abc.pdf", abc); (lit "empty.pdf", empty); (lit "blank.pdf", blank);
    (lit "long.pdf", long); (lit "x200.pdf", x200); (lit "x204.pdf", x204);
    (lit "symbols.pdf", symbols); (lit "broken.pdf", broken);
    (lit "garbled.pdf", garbled); (lit "lone.pdf", lone);
    (lit "lone201.pdf", lone_201); (lit "cjk.pdf", cjk);
    (name_cjk, empty); (name_surrogate, blank) ].

Fixpoint find (path : str) (fs : list (str * PdfReader)) : option PdfReader :=
  match fs with
  | [] => None
  | (name, r) :: fs' => if bool_decide (name = path) then Some r else find path fs'
  end.

Definition open_rb (path : str) : result str :=
  match find path files with
  | Some _ => Ok path
  | None => Raise (Exception
      (lit "[Errno 2] No such file or directory: '" ++ path ++ lit "'"))
  end.

Definition PdfReader_new (f : str) : result PdfReader :=
  match find f files with
  | Some r => Ok r
  | None => Raise (Exception (lit "EOF marker not found"))
  end.

(** The letters of the Latin-1 supplement; enough of the table for the
    sample texts. *)
Definition unicode_isalnum (c : codepoint) : bool :=
  ((192 <=? c) && (c <=? 255) && negb (c =? 215) && negb (c =? 247))%N.

Definition w0 : world := World [] 0.

(** The four header lines of the run on a sample document that is not
    encrypted. *)
Definition header (name count : string) : list str :=
  [ lit "=== PDF Analysis ===";
    lit "File: " ++ lit name;
    lit "Pages: " ++ lit count;
    lit "Is Encrypted: False" ].

End Demo.

(** Two readers on which a property access fails. *)
Module Faulty.

(** An encrypted document that was not decrypted: no page count. *)
Definition locked : PdfReader :=
  {| pages := Raise (Exception (lit "File has not been decrypted"));
     is_encrypted := Ok true;
     metadata := Ok None |}.

(** A document whose information dictionary cannot be read. *)
Definition no_info : PdfReader :=
  {| pages := Ok [Demo.page (Ok (lit "abc")); Demo.page (Ok (lit "def"))];
     is_encrypted := Ok false;
     metadata := Raise (Exception (lit "trailer cannot be read")) |}.

End Faulty.

(** ** The script *)

Section Analyzer.

(** [str.isalnum] outside ASCII: the Unicode character database. *)
Variable unicode_isalnum : codepoint -> bool.

(** [sys.stdout]. *)
Variable sys_stdout : stream.

(** [open(path, 'rb')] and [PyPDF2.PdfReader(file)]. *)
Variable File : Type.
Variable open_rb : str -> result File.
Variable PdfReader_new : File -> result PdfReader.

(** [c.isalnum()] *)
Definition isalnum (c : codepoint) : bool :=
  if (c <? 128)%N then ascii_isalnum c else unicode_isalnum c.

(** [print(s)] *)
Definition print (s : str) : M unit := print_to sys_stdout s.

(** Lines 14-19. *)
Definition print_metadata (reader : PdfReader) : M unit :=
  md ← call (metadata reader);
  if truthy md then
    v ← metadata_get reader (lit "/PDF") (lit "Unknown");
    print (lit "PDF Version: " ++ v);;
    v ← metadata_get reader (lit "/Creator") (lit "Unknown");
    print (lit "Creator: " ++ v);;
    v ← metadata_get reader (lit "/Producer") (lit "Unknown");
    print (lit "Producer: " ++ v)
  else
    print (lit "No metadata found").

(** Line 31: the conditional expression is the argument of [print]; the
    division is evaluated only in its first branch. *)
Definition quality_line (non_whitespace : Z) (text : str) : M str :=
  if 0 <? Z.of_nat (length text) then
    q ← call (int_truediv non_whitespace (Z.of_nat (length text)));
    mret (lit "Text quality ratio: "
            ++ format_1f (float_mul_int q 100) ++ lit "%")
  else
    mret (lit "0%").

(** Lines 21-33. *)
Definition check_first_page (reader : PdfReader) : M unit :=
  n ← len_pages reader;
  if 0 <? n then
    first_page ← pages_0 reader;
    text ← call_extract_text first_page;
    print (lit "First page text length: "
             ++ str_of_int (Z.of_nat (length text)));;
    print (lit "First page text preview: " ++ take 200 text ++ lit "...");;
    let non_whitespace := Z.of_nat (length (List.filter isalnum text)) in
    print (lit "Non-whitespace characters: " ++ str_of_int non_whitespace);;
    line ← quality_line non_whitespace text;
    print line
  else
    print (lit "No pages found").

(** Lines 6-33, the body of the [try].  Leaving the [with] block closes
    the file and lets an exception of the block pass. *)
Definition analyze_body (pdf_path : str) : M unit :=
  pdf_file ← call (open_rb pdf_path);
  reader ← call (PdfReader_new pdf_file);
  print (lit "=== PDF Analysis ===");;
  print (lit "File: " ++ pdf_path);;
  n ← len_pages reader;
  print (lit "Pages: " ++ str_of_int n);;
  enc ← call (is_encrypted reader);
  print (lit "Is Encrypted: " ++ str_of_bool enc);;
  print_metadata reader;;
  check_first_page reader.

(** Lines 4-36. *)
Definition analyze_pdf (pdf_path : str) : M unit :=
  try_except (analyze_body pdf_path)
    (fun e => print (lit "Error analyzing PDF: " ++ str_of_exn e)).

(** Lines 38-40. *)
Definition main : M unit :=
  let pdf_path := lit "8.25.25IPanalysis.md.pdf" in
  analyze_pdf pdf_path.

(** What line 31 prints, as a value: [quality_line] never raises (see
    [quality_line_run]). *)
Definition quality_text (non_whitespace : Z) (text : str) : str :=
  if 0 <? Z.of_nat (length text) then
    lit "Text quality ratio: "
      ++ format_1f (float_mul_int
           (SFdiv prec emax (float_of_int non_whitespace)
              (float_of_int (Z.of_nat (length text)))) 100)
      ++ lit "%"
  else lit "0%".

(** The four lines of the first-page step for an extracted [text]. *)
Definition first_page_lines (text : str) : list str :=
  let non_whitespace := Z.of_nat (length (List.filter isalnum text)) in
  [ lit "First page text length: " ++ str_of_int (Z.of_nat (length text));
    lit "First page text preview: " ++ take 200 text ++ lit "...";
    lit "Non-whitespace characters: " ++ str_of_int non_whitespace;
    quality_text non_whitespace text ].

(** The error line of the handler. *)
Definition error_line (e : exn) : str :=
  lit "Error analyzing PDF: " ++ str_of_exn e.

(** What the body of the [try] does for a path, read off the outcomes of
    the library calls in the order the script makes them: the events up
    to the end of the body or the first call that raises, and how the body
    then ends (see [analyze_body_script]). *)
Definition script (pdf_path : str) : list event * result unit :=
  match open_rb pdf_path with
  | Raise e => ([], Raise e)
  | Ok f =>
  match PdfReader_new f with
  | Raise e => ([], Raise e)
  | Ok reader =>
  let banner :=
    [Print (lit "=== PDF Analysis ==="); Print (lit "File: " ++ pdf_path)] in
  match pages reader with
  | Raise e => (banner, Raise e)
  | Ok ps =>
  let count := Print (lit "Pages: " ++ str_of_int (Z.of_nat (length ps))) in
  match is_encrypted reader with
  | Raise e => (banner ++ [count], Raise e)
  | Ok enc =>
  let header := map Print (header_lines pdf_path (Z.of_nat (length ps)) enc) in
  match metadata reader with
  | Raise e => (header, Raise e)
  | Ok md =>
  let upto := header ++ map Print (metadata_lines md) in
  match ps with
  | [] => (upto ++ [Print (lit "No pages found")], Ok tt)
  | p :: _ =>
  match extract_text p with
  | Raise e => (upto ++ [Extract], Raise e)
  | Ok text => (upto ++ Extract :: map Print (first_page_lines text), Ok tt)
  end end end end end end end.

(** The events of lines 21-33 for a page sequence, and how they end. *)
Definition page_events (ps : list PageObject) : list event * result unit :=
  match ps with
  | [] => ([Print (lit "No pages found")], Ok tt)
  | p :: _ =>
      match extract_text p with
      | Raise e => ([Extract], Raise e)
      | Ok text => (Extract :: map Print (first_page_lines text), Ok tt)
      end
  end.

(** ** The monad's equations *)

Lemma emit_emit (a b : list str) (w : world) :
  emit b (emit a w) = emit (a ++ b) w.
Proof. unfold emit; simpl. by rewrite <- app_assoc. Qed.

Lemma emit_tick (a : list str) (w : world) : emit a (tick w) = tick (emit a w).
Proof. reflexivity. Qed.

Lemma bind_call_Ok {A B} (a : A) (k : A -> M B) (w : world) :
  (call (Ok a) ≫= k) w = k a w.
Proof. reflexivity. Qed.

Lemma bind_call_Raise {A B} (e : exn) (k : A -> M B) (w : world) :
  (call (Raise e) ≫= k) w = (Raise e, w).
Proof. reflexivity. Qed.

Lemma bind_ret {A B} (a : A) (k : A -> M B) (w : world) :
  (mret a ≫= k) w = k a w.
Proof. reflexivity. Qed.

Lemma bind_bind {A B C} (m : M A) (k : A -> M B) (h : B -> M C) (w : world) :
  ((m ≫= k) ≫= h) w = (m ≫= (fun a => k a ≫= h)) w.
Proof.
  unfold mbind, M_bind. destruct (m w) as [[a|e] w']; reflexivity.
Qed.

Lemma bind_print {B} (s : str) (k : unit -> M B) (w : world) :
  (print s ≫= k) w =
    if writable sys_stdout s then k tt (emit [s] w)
    else (Raise (encode_error sys_stdout s), w).
Proof.
  unfold mbind, M_bind, print, print_to. by destruct (writable sys_stdout s).
Qed.

(** ** Events *)

Lemma prints_app (tr1 tr2 : list event) :
  prints (tr1 ++ tr2) = prints tr1 ++ prints tr2.
Proof.
  induction tr1 as [|[s|] tr1 IH]; simpl; [done| |done]. by rewrite IH.
Qed.

Lemma extracts_app (tr1 tr2 : list event) :
  extracts (tr1 ++ tr2) = (extracts tr1 + extracts tr2)%nat.
Proof.
  induction tr1 as [|[s|] tr1 IH]; simpl; [done|done|]. by rewrite IH.
Qed.

Lemma prints_map_Print (l : list str) : prints (map Print l) = l.
Proof. induction l as [|s l IH]; simpl; [done|]. by rewrite IH. Qed.

Lemma extracts_map_Print (l : list str) : extracts (map Print l) = 0%nat.
Proof. induction l as [|s l IH]; simpl; done. Qed.

Lemma after_nil (w : world) : after [] w = w.
Proof. destruct w. unfold after. simpl. by rewrite app_nil_r. Qed.

Lemma after_print (s : str) (tr : list event) (w : world) :
  after (Print s :: tr) w = after tr (emit [s] w).
Proof. unfold after, emit. simpl. by rewrite <- app_assoc. Qed.

Lemma after_extract (tr : list event) (w : world) :
  after (Extract :: tr) w = after tr (tick w).
Proof. unfold after, tick. simpl. by rewrite Nat.add_succ_r. Qed.

Lemma after_app (tr1 tr2 : list event) (w : world) :
  after (tr1 ++ tr2) w = after tr2 (after tr1 w).
Proof.
  revert w. induction tr1 as [|[s|] tr1 IH]; intros w.
  - by rewrite after_nil.
  - simpl. by rewrite !after_print, IH.
  - simpl. by rewrite !after_extract, IH.
Qed.

Lemma after_lines (l : list str) (w : world) : after (map Print l) w = emit l w.
Proof. unfold after, emit. by rewrite prints_map_Print, extracts_map_Print. Qed.

Lemma play_app (tr1 tr2 : list event) (fin : result unit) (w : world) :
  play sys_stdout (tr1 ++ tr2) fin w =
    match play sys_stdout tr1 (Ok tt) w with
    | (Ok _, w') => play sys_stdout tr2 fin w'
    | (Raise e, w') => (Raise e, w')
    end.
Proof.
  revert w. induction tr1 as [|[s|] tr1 IH]; intros w; simpl; [done| |done].
  by destruct (writable sys_stdout s).
Qed.

(** Either every line is written and the body ends as [fin], or the body
    stops with the encoder's exception at the first line that cannot be
    written. *)
Lemma play_spec (tr : list event) (fin : result unit) (w : world) :
  (forallb (writable sys_stdout) (prints tr) = true /\
   play sys_stdout tr fin w = (fin, after tr w)) \/
  (exists pre s post,
     tr = pre ++ Print s :: post /\
     forallb (writable sys_stdout) (prints pre) = true /\
     writable sys_stdout s = false /\
     play sys_stdout tr fin w
       = (Raise (encode_error sys_stdout s), after pre w)).
Proof.
  revert w. induction tr as [|[s|] tr IH]; intros w.
  - left. by rewrite after_nil.
  - simpl. destruct (writable sys_stdout s) eqn:Hs.
    + destruct (IH (emit [s] w)) as [[Hall Hrun]|(pre & s' & post & -> & Hpre & Hs' & Hrun)].
      * left. by rewrite after_print.
      * right. exists (Print s :: pre), s', post. simpl.
        by rewrite Hs, after_print.
    + right. exists [], s, tr. by rewrite after_nil.
  - simpl. destruct (IH (tick w)) as [[Hall Hrun]|(pre & s' & post & -> & Hpre & Hs' & Hrun)].
    + left. by rewrite after_extract.
    + right. exists (Extract :: pre), s', post. simpl.
      by rewrite after_extract.
Qed.

Lemma play_writable (tr : list event) (fin : result unit) (w : world) :
  forallb (writable sys_stdout) (prints tr) = true ->
  play sys_stdout tr fin w = (fin, after tr w).
Proof.
  intros Hall.
  destruct (play_spec tr fin w) as [[_ Hrun]|(pre & s & post & -> & _ & Hs & _)];
    [done|].
  rewrite prints_app, forallb_app in Hall. simpl in Hall.
  rewrite Hs in Hall. by rewrite andb_false_r in Hall.
Qed.

Lemma bind_play (m : M unit) (k : unit -> M unit) (tr1 tr2 : list event)
    (fin : result unit) :
  (forall w, m w = play sys_stdout tr1 (Ok tt) w) ->
  (forall w, k tt w = play sys_stdout tr2 fin w) ->
  forall w, (m ≫= k) w = play sys_stdout (tr1 ++ tr2) fin w.
Proof.
  intros Hm Hk w. unfold mbind, M_bind. rewrite Hm, play_app.
  destruct (play sys_stdout tr1 (Ok tt) w) as [[[]|e] w']; [apply Hk|done].
Qed.

Lemma print_play (s : str) (w : world) :
  print s w = play sys_stdout [Print s] (Ok tt) w.
Proof. reflexivity. Qed.

(** ** The steps of the script, as events *)

Lemma print_metadata_play (reader : PdfReader) (md : option (gmap str str))
    (w : world) :
  metadata reader = Ok md ->
  print_metadata reader w
    = play sys_stdout (map Print (metadata_lines md)) (Ok tt) w.
Proof.
  intros Hmd. unfold print_metadata, metadata_get, metadata_lines, truthy.
  rewrite Hmd, bind_call_Ok.
  destruct md as [m|]; [|reflexivity].
  destruct (size m =? 0)%nat; [reflexivity|]. cbn [negb map play].
  rewrite bind_bind, bind_call_Ok, bind_ret, bind_print.
  destruct (writable sys_stdout _); [|reflexivity].
  rewrite bind_bind, bind_call_Ok, bind_ret, bind_print.
  destruct (writable sys_stdout _); [|reflexivity].
  rewrite bind_bind, bind_call_Ok, bind_ret. reflexivity.
Qed.

Lemma print_metadata_raise (reader : PdfReader) (e : exn) (w : world) :
  metadata reader = Raise e -> print_metadata reader w = (Raise e, w).
Proof.
  intros Hmd. unfold print_metadata, mbind, M_bind, call. by rewrite Hmd.
Qed.

(** The guard of line 31 keeps the division away from a zero divisor. *)
Lemma quality_line_run (k : Z) (text : str) (w : world) :
  quality_line k text w = (Ok (quality_text k text), w).
Proof.
  unfold quality_line, quality_text, int_truediv.
  destruct (0 <? Z.of_nat (length text)) eqn:Hlen; [|reflexivity].
  apply Z.ltb_lt in Hlen.
  destruct (Z.eqb_spec (Z.of_nat (length text)) 0) as [Hz|_]; [lia|].
  reflexivity.
Qed.

Lemma check_first_page_none (reader : PdfReader) (w : world) :
  pages reader = Ok [] ->
  check_first_page reader w
    = play sys_stdout [Print (lit "No pages found")] (Ok tt) w.
Proof.
  intros Hps. unfold check_first_page, len_pages.
  by rewrite bind_bind, Hps.
Qed.

Lemma check_first_page_extract_raise (reader : PdfReader) (p : PageObject)
    (ps : list PageObject) (e : exn) (w : world) :
  pages reader = Ok (p :: ps) ->
  extract_text p = Raise e ->
  check_first_page reader w = play sys_stdout [Extract] (Raise e) w.
Proof.
  intros Hps Hp.
  unfold check_first_page, len_pages, pages_0, call_extract_text.
  unfold mbind, M_bind, call. rewrite Hps. simpl. by rewrite Hp.
Qed.

Lemma check_first_page_text (reader : PdfReader) (p : PageObject)
    (ps : list PageObject) (text : str) (w : world) :
  pages reader = Ok (p :: ps) ->
  extract_text p = Ok text ->
  check_first_page reader w
    = play sys_stdout (Extract :: map Print (first_page_lines text)) (Ok tt) w.
Proof.
  intros Hps Hp. unfold check_first_page, len_pages, pages_0.
  rewrite bind_bind, Hps, bind_call_Ok, bind_ret.
  change (0 <? Z.of_nat (length (p :: ps))) with true. cbv iota.
  rewrite bind_bind, bind_call_Ok, bind_ret.
  unfold mbind at 1, M_bind at 1, call_extract_text. rewrite Hp.
  unfold first_page_lines. cbn [map play].
  rewrite bind_print. destruct (writable sys_stdout _); [|reflexivity].
  rewrite bind_print. destruct (writable sys_stdout _); [|reflexivity].
  rewrite bind_print. destruct (writable sys_stdout _); [|reflexivity].
  unfold mbind, M_bind. rewrite quality_line_run. reflexivity.
Qed.

(** The body of the [try] is its script played on [sys.stdout]. *)
Lemma analyze_body_script (pdf_path : str) (w : world) :
  analyze_body pdf_path w
    = play sys_stdout (script pdf_path).1 (script pdf_path).2 w.
Proof.
  unfold analyze_body, script, len_pages.
  destruct (open_rb pdf_path) as [f|e]; [|reflexivity].
  rewrite bind_call_Ok.
  destruct (PdfReader_new f) as [reader|e] eqn:Hr; [|reflexivity].
  rewrite bind_call_Ok, bind_print.
  assert (Hdone : forall (tr : list event) fin,
            play sys_stdout (Print (lit "=== PDF Analysis ===") :: tr) fin w
            = if writable sys_stdout (lit "=== PDF Analysis ===")
              then play sys_stdout tr fin (emit [lit "=== PDF Analysis ==="] w)
              else (Raise (encode_error sys_stdout (lit "=== PDF Analysis ===")), w))
    by reflexivity.
  destruct (pages reader) as [ps|e] eqn:Hps.
  2:{ cbn [fst snd]. rewrite Hdone.
      destruct (writable sys_stdout (lit "=== PDF Analysis ===")); [|reflexivity].
      rewrite bind_print. cbn [play].
      destruct (writable sys_stdout (lit "File: " ++ pdf_path)); [|reflexivity].
      by rewrite bind_bind, bind_call_Raise. }
  destruct (is_encrypted reader) as [enc|e] eqn:Henc.
  2:{ cbn [fst snd app]. rewrite Hdone.
      destruct (writable sys_stdout (lit "=== PDF Analysis ===")); [|reflexivity].
      rewrite bind_print. cbn [play].
      destruct (writable sys_stdout (lit "File: " ++ pdf_path)); [|reflexivity].
      rewrite bind_bind, bind_call_Ok, bind_ret, bind_print.
      destruct (writable sys_stdout _); [|reflexivity].
      by rewrite bind_call_Raise. }
  assert (Hheader : forall (k : M unit) (tr : list event) fin,
            (forall w', k w' = play sys_stdout tr fin w') ->
            (if writable sys_stdout (lit "=== PDF Analysis ===")
             then
               (print (lit "File: " ++ pdf_path) ≫= fun _ =>
                (call (Ok ps) ≫= fun ps0 => mret (Z.of_nat (length ps0)))
                  ≫= fun n => print (lit "Pages: " ++ str_of_int n) ≫= fun _ =>
                call (Ok enc) ≫= fun enc0 =>
                print (lit "Is Encrypted: " ++ str_of_bool enc0) ≫= fun _ => k)
                 (emit [lit "=== PDF Analysis ==="] w)
             else (Raise (encode_error sys_stdout (lit "=== PDF Analysis ===")), w))
            = play sys_stdout
                (map Print (header_lines pdf_path (Z.of_nat (length ps)) enc)
                   ++ tr) fin w).
  { intros k tr fin Hk. unfold header_lines. cbn [map app play].
    destruct (writable sys_stdout (lit "=== PDF Analysis ===")); [|reflexivity].
    rewrite bind_print.
    destruct (writable sys_stdout (lit "File: " ++ pdf_path)); [|reflexivity].
    rewrite bind_bind, bind_call_Ok, bind_ret, bind_print.
    destruct (writable sys_stdout _); [|reflexivity].
    rewrite bind_call_Ok, bind_print.
    destruct (writable sys_stdout _); [|reflexivity].
    apply Hk. }
  destruct (metadata reader) as [md|e] eqn:Hmd.
  2:{ cbn [fst snd].
      rewrite <- (app_nil_r (map Print (header_lines _ _ _))).
      apply Hheader. intros w'. unfold mbind, M_bind.
      by rewrite (print_metadata_raise _ _ _ Hmd). }
  destruct ps as [|p ps].
  { cbn [fst snd]. rewrite <- app_assoc. apply Hheader.
    apply bind_play; intros w'.
    - by apply print_metadata_play.
    - by apply check_first_page_none. }
  destruct (extract_text p) as [text|e] eqn:Hp; cbn [fst snd];
    rewrite <- app_assoc; apply Hheader; apply bind_play; intros w'.
  - by apply print_metadata_play.
  - by apply (check_first_page_text _ p ps).
  - by apply print_metadata_play.
  - by apply (check_first_page_extract_raise _ p ps).
Qed.

(** ** What every stream can write *)

Lemma writable_app (s t : str) :
  writable sys_stdout (s ++ t)
    = writable sys_stdout s && writable sys_stdout t.
Proof. unfold writable. apply forallb_app. Qed.

Lemma writable_digits (d : Decimal.uint) :
  writable sys_stdout (lit (NilEmpty.string_of_uint d)) = true.
Proof. induction d; simpl; done. Qed.

Lemma writable_str_of_int (n : Z) : writable sys_stdout (str_of_int n) = true.
Proof.
  assert (Huint : forall d,
            writable sys_stdout (lit (NilZero.string_of_uint d)) = true).
  { intros d. destruct d; [reflexivity|apply writable_digits..]. }
  unfold str_of_int, NilZero.string_of_int.
  destruct (Z.to_int n) as [d|d]; [apply Huint|].
  change (writable sys_stdout (lit (NilZero.string_of_uint d)) = true).
  apply Huint.
Qed.

Lemma writable_str_of_bool (b : bool) :
  writable sys_stdout (str_of_bool b) = true.
Proof. by destruct b. Qed.

Lemma writable_format_1f (x : float) : writable sys_stdout (format_1f x) = true.
Proof.
  unfold format_1f.
  destruct x as [s|s| |s m e]; [by destruct s|by destruct s|done|].
  rewrite !writable_app, !writable_str_of_int. by destruct s.
Qed.

Lemma writable_quality_text (k : Z) (text : str) :
  writable sys_stdout (quality_text k text) = true.
Proof.
  unfold quality_text. destruct (0 <? Z.of_nat (length text)); [|done].
  by rewrite !writable_app, writable_format_1f.
Qed.

Lemma writable_header_lines (pdf_path : str) (n : Z) (enc : bool) :
  forallb (writable sys_stdout) (header_lines pdf_path n enc)
    = writable sys_stdout pdf_path.
Proof.
  unfold header_lines. cbn [forallb].
  rewrite !writable_app, writable_str_of_int, writable_str_of_bool.
  by rewrite andb_true_r.
Qed.

Lemma writable_first_page_lines (text : str) :
  forallb (writable sys_stdout) (first_page_lines text)
    = writable sys_stdout (take 200 text).
Proof.
  unfold first_page_lines. cbn [forallb].
  rewrite !writable_app, !writable_str_of_int, writable_quality_text.
  by rewrite !andb_true_r.
Qed.

(** ** Whole runs *)

Lemma analyze_pdf_script (pdf_path : str) (w : world) :
  analyze_pdf pdf_path w =
    match play sys_stdout (script pdf_path).1 (script pdf_path).2 w with
    | (Ok a, w') => (Ok a, w')
    | (Raise e, w') => print (error_line e) w'
    end.
Proof. unfold analyze_pdf, try_except. by rewrite analyze_body_script. Qed.

Lemma analyze_pdf_raise (pdf_path : str) (e : exn) (w w1 : world) :
  analyze_body pdf_path w = (Raise e, w1) ->
  analyze_pdf pdf_path w =
    if writable sys_stdout (error_line e)
    then (Ok tt, emit [error_line e] w1)
    else (Raise (encode_error sys_stdout (error_line e)), w1).
Proof. intros H. unfold analyze_pdf, try_except. by rewrite H. Qed.

Lemma analyze_pdf_ok (pdf_path : str) (w w1 : world) :
  analyze_body pdf_path w = (Ok tt, w1) ->
  analyze_pdf pdf_path w = (Ok tt, w1).
Proof. intros H. unfold analyze_pdf, try_except. by rewrite H. Qed.

(** Every run: the body gets through a part [done] of its script.  Either
    that is all of it and the body ends as the script says, or the next
    event is a line the stream cannot encode and the body raises there. *)
Lemma analyze_body_spec (pdf_path : str) (w : world) :
  exists done rest,
    (script pdf_path).1 = done ++ rest /\
    forallb (writable sys_stdout) (prints done) = true /\
    ((rest = [] /\
      analyze_body pdf_path w = ((script pdf_path).2, after done w)) \/
     (exists s post,
        rest = Print s :: post /\ writable sys_stdout s = false /\
        analyze_body pdf_path w
          = (Raise (encode_error sys_stdout s), after done w))).
Proof.
  rewrite analyze_body_script.
  destruct (play_spec (script pdf_path).1 (script pdf_path).2 w)
    as [[Hall Hrun]|(pre & s & post & Htr & Hpre & Hs & Hrun)].
  - exists (script pdf_path).1, []. rewrite app_nil_r. eauto.
  - exists pre, (Print s :: post). split; [exact Htr|]. split; [exact Hpre|].
    right. eauto.
Qed.

(** The lines of a run: lines of the script, in order and from its start,
    then possibly the error line. *)
Lemma run_printed (pdf_path : str) (w : world) :
  exists done rest tail,
    (script pdf_path).1 = done ++ rest /\
    stdout (analyze_pdf pdf_path w).2 = stdout w ++ prints done ++ tail /\
    extract_text_calls (analyze_pdf pdf_path w).2
      = (extracts done + extract_text_calls w)%nat /\
    (tail = [] \/
     exists e w1, analyze_body pdf_path w = (Raise e, w1) /\
                  tail = [error_line e] /\
                  ((rest = [] /\ (script pdf_path).2 = Raise e) \/
                   exists s post, rest = Print s :: post)).
Proof.
  destruct (analyze_body_spec pdf_path w)
    as (done & rest & Htr & _ & [[-> Hrun]|(s & post & -> & Hs & Hrun)]).
  - destruct (script pdf_path).2 as [[]|e] eqn:Hfin.
    + exists done, [], []. rewrite (analyze_pdf_ok _ _ _ Hrun).
      split; [exact Htr|]. split; [by rewrite app_nil_r|]. by split; [|left].
    + rewrite (analyze_pdf_raise _ _ _ _ Hrun).
      destruct (writable sys_stdout (error_line e)).
      * exists done, [], [error_line e]. split; [exact Htr|].
        cbn [snd stdout emit extract_text_calls after].
        split; [by rewrite <- app_assoc|]. split; [done|]. right.
        exists e, (after done w). eauto.
      * exists done, [], [].
        split; [exact Htr|]. split; [by rewrite app_nil_r|]. by split; [|left].
  - rewrite (analyze_pdf_raise _ _ _ _ Hrun).
    destruct (writable sys_stdout (error_line _)).
    + exists done, (Print s :: post), [error_line (encode_error sys_stdout s)].
      split; [exact Htr|]. cbn [snd stdout emit extract_text_calls after].
      split; [by rewrite <- app_assoc|]. split; [done|]. right.
      exists (encode_error sys_stdout s), (after done w). eauto 6.
    + exists done, (Print s :: post), [].
      split; [exact Htr|]. split; [by rewrite app_nil_r|]. by split; [|left].
Qed.

Lemma body_world (done : list event) (w : world) :
  stdout (after done w) = stdout w ++ prints done /\
  extract_text_calls (after done w)
    = (extracts done + extract_text_calls w)%nat.
Proof. done. Qed.

(** The scripts of the runs that get to the first-page step. *)
Section Reached.

Variables (pdf_path : str) (f : File) (reader : PdfReader).
Variables (ps : list PageObject) (enc : bool) (md : option (gmap str str)).
Hypothesis open_ok : open_rb pdf_path = Ok f.
Hypothesis parse_ok : PdfReader_new f = Ok reader.
Hypothesis pages_ok : pages reader = Ok ps.
Hypothesis encrypted_ok : is_encrypted reader = Ok enc.
Hypothesis metadata_ok : metadata reader = Ok md.

Lemma script_no_pages :
  ps = [] ->
  script pdf_path =
    (map Print (header_lines pdf_path 0 enc ++ metadata_lines md
                  ++ [lit "No pages found"]), Ok tt).
Proof.
  intros Hps. unfold script.
  rewrite open_ok, parse_ok, pages_ok, encrypted_ok, metadata_ok, Hps.
  by rewrite !map_app, <- app_assoc.
Qed.

Lemma script_text (p : PageObject) (ps' : list PageObject) (text : str) :
  ps = p :: ps' ->
  extract_text p = Ok text ->
  script pdf_path =
    (map Print (header_lines pdf_path (Z.of_nat (length ps)) enc
                  ++ metadata_lines md)
       ++ Extract :: map Print (first_page_lines text), Ok tt).
Proof.
  intros Hps Hp. unfold script.
  rewrite open_ok, parse_ok, pages_ok, encrypted_ok, metadata_ok, Hps, Hp.
  by rewrite map_app.
Qed.


Hypothesis path_writable : writable sys_stdout pdf_path = true.
Hypothesis metadata_writable :
  forallb (writable sys_stdout) (metadata_lines md) = true.

Lemma run_no_pages (w : world) :
  ps = [] ->
  analyze_pdf pdf_path w =
    (Ok tt, emit (header_lines pdf_path 0 enc ++ metadata_lines md
                    ++ [lit "No pages found"]) w).
Proof.
  intros Hps. rewrite analyze_pdf_script, (script_no_pages Hps). cbn [fst snd].
  rewrite play_writable.
  - by rewrite after_lines.
  - rewrite prints_map_Print, !forallb_app, writable_header_lines.
    by rewrite path_writable, metadata_writable.
Qed.

Lemma run_text (p : PageObject) (ps' : list PageObject) (text : str)
    (w : world) :
  ps = p :: ps' ->
  extract_text p = Ok text ->
  writable sys_stdout (take 200 text) = true ->
  analyze_pdf pdf_path w =
    (Ok tt, tick (emit (header_lines pdf_path (Z.of_nat (length ps)) enc
                          ++ metadata_lines md ++ first_page_lines text) w)).
Proof.
  intros Hps Hp Htext.
  rewrite analyze_pdf_script, (script_text _ _ _ Hps Hp). cbn [fst snd].
  rewrite play_writable.
  - rewrite after_app, after_extract, !after_lines.
    by rewrite emit_tick, emit_emit, <- app_assoc.
  - rewrite prints_app. cbn [prints]. rewrite !prints_map_Print.
    rewrite !forallb_app, writable_header_lines, writable_first_page_lines.
    by rewrite path_writable, metadata_writable, Htext.
Qed.


End Reached.

(** ** Lists of lines *)

Lemma filter_none {A} (P : A -> bool) (l : list A) :
  forallb (fun x => negb (P x)) l = true -> List.filter P l = [].
Proof.
  induction l as [|x l IH]; simpl; [done|].
  destruct (P x); simpl; [done|]. exact IH.
Qed.

Lemma filter_app_nil {A} (P : A -> bool) (l1 l2 : list A) :
  List.filter P (l1 ++ l2) = [] -> List.filter P l1 = [].
Proof. rewrite List.filter_app. by intros [-> _]%app_eq_nil. Qed.

Lemma filter_singleton_in {A} (P : A -> bool) (l : list A) (x y : A) :
  List.filter P l = [x] -> In y l -> P y = true -> y = x.
Proof.
  intros Hfil Hin Hy.
  assert (Hy' : In y (List.filter P l)) by (by apply List.filter_In).
  rewrite Hfil in Hy'. simpl in Hy'. by destruct Hy' as [->|[]].
Qed.

Lemma metadata_lines_length (md : option (gmap str str)) :
  length (metadata_lines md) = 1%nat \/ length (metadata_lines md) = 3%nat.
Proof.
  unfold metadata_lines.
  destruct md as [m|]; [destruct (size m =? 0)%nat|]; simpl; tauto.
Qed.

(** The script has at most eleven lines, at most seven when a library call
    raises, and at most one call of [extract_text]. *)
Lemma script_size (pdf_path : str) :
  (length (prints (script pdf_path).1) <= 11)%nat /\
  (forall e, (script pdf_path).2 = Raise e ->
             length (prints (script pdf_path).1) <= 7)%nat /\
  (extracts (script pdf_path).1 <= 1)%nat.
Proof.
  unfold script.
  destruct (open_rb pdf_path) as [f|e]; [|simpl; repeat split; intros; lia].
  destruct (PdfReader_new f) as [reader|e];
    [|simpl; repeat split; intros; lia].
  destruct (pages reader) as [ps|e]; [|simpl; repeat split; intros; lia].
  destruct (is_encrypted reader) as [enc|e];
    [|simpl; repeat split; intros; lia].
  destruct (metadata reader) as [md|e];
    [|simpl; repeat split; intros; lia].
  pose proof (metadata_lines_length md) as Hmd.
  destruct ps as [|p ps]; [|destruct (extract_text p)]; cbn [fst snd];
    rewrite !prints_app, !extracts_app, ?prints_map_Print,
      ?extracts_map_Print, !length_app; cbn [prints extracts];
    rewrite ?prints_map_Print, ?extracts_map_Print; simpl;
    repeat split; intros; try discriminate; lia.
Qed.

(** No line of the script looks like the error line. *)
Lemma script_no_error_line (pdf_path : str) :
  List.filter is_error_line (prints (script pdf_path).1) = [].
Proof.
  unfold script.
  destruct (open_rb pdf_path) as [f|e]; [|reflexivity].
  destruct (PdfReader_new f) as [reader|e]; [|reflexivity].
  destruct (pages reader) as [ps|e]; [|reflexivity].
  destruct (is_encrypted reader) as [enc|e]; [|reflexivity].
  assert (Hmd : forall md, List.filter is_error_line (metadata_lines md) = []).
  { intros md. unfold metadata_lines.
    by destruct md as [m|]; [destruct (size m =? 0)%nat|]. }
  assert (Hpage : forall text,
            List.filter is_error_line (first_page_lines text) = []).
  { intros text. unfold first_page_lines, quality_text.
    by destruct (0 <? Z.of_nat (length text)). }
  destruct (metadata reader) as [md|e]; [|reflexivity].
  destruct ps as [|p ps]; [|destruct (extract_text p)]; cbn [fst snd];
    rewrite !prints_app; cbn [prints];
    rewrite ?prints_map_Print, !List.filter_app, ?Hmd, ?Hpage; reflexivity.
Qed.

Lemma prints_prefix_filter (P : str -> bool) (done rest : list event) :
  List.filter P (prints (done ++ rest)) = [] ->
  List.filter P (prints done) = [].
Proof. rewrite prints_app. apply filter_app_nil. Qed.

(** Where the body stands when it raises. *)
Lemma body_raise_world (pdf_path : str) (e : exn) (w w1 : world) :
  analyze_body pdf_path w = (Raise e, w1) ->
  exists done rest,
    (script pdf_path).1 = done ++ rest /\ w1 = after done w.
Proof.
  intros Hrun.
  destruct (analyze_body_spec pdf_path w)
    as (done & rest & Htr & _ & [[_ Hrun']|(s & post & _ & _ & Hrun')]);
    rewrite Hrun in Hrun'; injection Hrun' as _ ->; eauto.
Qed.

(** ** Error handling *)

(** C1, as amended: whenever the body of the [try] fails, with whatever
    exception and at whatever point, the lines it printed stay and none of
    them has the form of the error line.  If the stream can encode the
    description of the exception, [analyze_pdf] prints the line
    [Error analyzing PDF: <description>], the only line of this form in the
    run, and returns normally, and so does the program.  If it cannot, the
    [print] of the handler raises and [analyze_pdf] raises that exception
    to its caller, with no error line printed. *)
Theorem analyze_pdf_reports_failure (pdf_path : str) (e : exn)
    (w w1 : world) :
  analyze_body pdf_path w = (Raise e, w1) ->
  exists before,
    stdout w1 = stdout w ++ before /\
    List.filter is_error_line before = [] /\
    (writable sys_stdout (str_of_exn e) = true ->
     analyze_pdf pdf_path w =
       (Ok tt, emit [lit "Error analyzing PDF: " ++ str_of_exn e] w1) /\
     List.filter is_error_line
         (before ++ [lit "Error analyzing PDF: " ++ str_of_exn e])
       = [lit "Error analyzing PDF: " ++ str_of_exn e] /\
     (pdf_path = lit "8.25.25IPanalysis.md.pdf" -> (main w).1 = Ok tt)) /\
    (writable sys_stdout (str_of_exn e) = false ->
     analyze_pdf pdf_path w =
       (Raise (encode_error sys_stdout
                 (lit "Error analyzing PDF: " ++ str_of_exn e)), w1)).
Proof.
  intros Hrun.
  destruct (body_raise_world _ _ _ _ Hrun) as (done & rest & Htr & ->).
  pose proof (script_no_error_line pdf_path) as Hnone.
  rewrite Htr in Hnone. apply prints_prefix_filter in Hnone.
  pose proof (analyze_pdf_raise _ _ _ _ Hrun) as Hpdf.
  change (writable sys_stdout (error_line e))
    with (writable sys_stdout (str_of_exn e)) in Hpdf.
  exists (prints done). split; [done|]. split; [exact Hnone|]. split.
  - intros Hw. rewrite Hw in Hpdf. split; [exact Hpdf|]. split.
    + by rewrite List.filter_app, Hnone.
    + intros ->. unfold main. by rewrite Hpdf.
  - intros Hw. by rewrite Hw in Hpdf.
Qed.


(** ** The first page *)

(** On a document whose first page has the text [text], every printed line
    that starts with [label] is the one line [x] of the script that does. *)
Lemma printed_with_label (label x : str) (pdf_path : str) (f : File)
    (reader : PdfReader) (p : PageObject) (ps : list PageObject) (enc : bool)
    (md : option (gmap str str)) (text : str) (w : world) :
  open_rb pdf_path = Ok f ->
  PdfReader_new f = Ok reader ->
  pages reader = Ok (p :: ps) ->
  is_encrypted reader = Ok enc ->
  metadata reader = Ok md ->
  extract_text p = Ok text ->
  List.filter (startswith label)
      (header_lines pdf_path (Z.of_nat (length (p :: ps))) enc
         ++ metadata_lines md ++ first_page_lines text) = [x] ->
  (forall e, startswith label (error_line e) = false) ->
  exists printed,
    stdout (analyze_pdf pdf_path w).2 = stdout w ++ printed /\
    forall l, In l printed -> startswith label l = true -> l = x.
Proof.
  intros Hf Hr Hps Henc Hmd Hp Hfil Herr.
  destruct (run_printed pdf_path w)
    as (done & rest & tail & Htr & Hout & _ & Htail).
  rewrite (script_text _ _ _ _ _ _ Hf Hr Hps Henc Hmd p ps text eq_refl Hp)
    in Htr.
  apply (f_equal prints) in Htr. cbn [fst] in Htr.
  rewrite !prints_app in Htr. cbn [prints] in Htr.
  rewrite !prints_map_Print, <- app_assoc in Htr.
  exists (prints done ++ tail). split; [exact Hout|].
  intros l [Hin|Hin]%in_app_iff Hl.
  - apply (filter_singleton_in _ _ _ _ Hfil); [|exact Hl].
    rewrite Htr. apply in_app_iff. by left.
  - destruct Htail as [->|(e & w1 & _ & -> & _)]; [done|].
    destruct Hin as [<-|[]]. by rewrite Herr in Hl.
Qed.

(** C3: for a first page whose text has [n > 0] characters, [k] of them
    alphanumeric, the division does not fail, and every line of the run
    that starts with [Text quality ratio: ] is that label followed by the
    float [k / n * 100] in [.1f] format and [%].  The line is printed, as
    the last line of a run that returns normally, whenever the stream can
    encode the path, the metadata lines and the preview.  For the text
    [abc123  ###], [n = 11], [k = 6] and the line is
    [Text quality ratio: 54.5%]. *)
Theorem quality_ratio_line (pdf_path : str) (f : File) (reader : PdfReader)
    (p : PageObject) (ps : list PageObject) (enc : bool)
    (md : option (gmap str str)) (text : str) (w : world) :
  open_rb pdf_path = Ok f ->
  PdfReader_new f = Ok reader ->
  pages reader = Ok (p :: ps) ->
  is_encrypted reader = Ok enc ->
  metadata reader = Ok md ->
  extract_text p = Ok text ->
  (0 < length text)%nat ->
  let n := Z.of_nat (length text) in
  let k := Z.of_nat (length (List.filter isalnum text)) in
  exists q,
    int_truediv k n = Ok q /\
    let ratio :=
      lit "Text quality ratio: " ++ format_1f (float_mul_int q 100) ++ lit "%" in
    (exists printed,
       stdout (analyze_pdf pdf_path w).2 = stdout w ++ printed /\
       forall l, In l printed ->
                 startswith (lit "Text quality ratio: ") l = true ->
                 l = ratio) /\
    (writable sys_stdout pdf_path = true ->
     forallb (writable sys_stdout) (metadata_lines md) = true ->
     writable sys_stdout (take 200 text) = true ->
     analyze_pdf pdf_path w =
       (Ok tt,
        tick (emit (header_lines pdf_path (Z.of_nat (length (p :: ps))) enc
                      ++ metadata_lines md
                      ++ [ lit "First page text length: " ++ str_of_int n;
                           lit "First page text preview: "
                             ++ take 200 text ++ lit "...";
                           lit "Non-whitespace characters: " ++ str_of_int k;
                           ratio ])
                w))) /\
    (text = lit "abc123  ###" ->
     n = 11 /\ k = 6 /\ ratio = lit "Text quality ratio: 54.5%").
Proof.
  intros Hf Hr Hps Henc Hmd Hp Hlen n k.
  assert (Hn : (n =? 0) = false) by (apply Z.eqb_neq; unfold n; lia).
  assert (Hpos : (0 <? n) = true) by (apply Z.ltb_lt; unfold n; lia).
  exists (SFdiv prec emax (float_of_int k) (float_of_int n)).
  split; [unfold int_truediv; by rewrite Hn|]. intros ratio.
  assert (Hquality : quality_text k text = ratio).
  { unfold quality_text. fold n. by rewrite Hpos. }
  split; [|split].
  - apply (printed_with_label _ _ _ _ _ _ _ _ _ _ _ Hf Hr Hps Henc Hmd Hp);
      [|done].
    rewrite !List.filter_app. unfold first_page_lines. fold k.
    rewrite Hquality. unfold metadata_lines.
    by destruct md as [m|]; [destruct (size m =? 0)%nat|].
  - intros Hpath Hlines Htext.
    rewrite (run_text _ _ _ _ _ _ Hf Hr Hps Henc Hmd Hpath Hlines p ps text w
               eq_refl Hp Htext).
    unfold first_page_lines. fold n k. by rewrite Hquality.
  - intros ->. subst ratio n k. by vm_compute.
Qed.

(** C4: for a first page whose text is longer than 200 characters, whatever
    the characters are, every line of the run that starts with
    [First page text preview: ] is that label, the first 200 characters of
    the text, and [...].  The line is printed, in a run that returns
    normally, whenever the stream can encode the path, the metadata lines
    and these 200 characters. *)
Theorem preview_line_truncates (pdf_path : str) (f : File)
    (reader : PdfReader) (p : PageObject) (ps : list PageObject) (enc : bool)
    (md : option (gmap str str)) (text : str) (w : world) :
  open_rb pdf_path = Ok f ->
  PdfReader_new f = Ok reader ->
  pages reader = Ok (p :: ps) ->
  is_encrypted reader = Ok enc ->
  metadata reader = Ok md ->
  extract_text p = Ok text ->
  (200 < length text)%nat ->
  let k := Z.of_nat (length (List.filter isalnum text)) in
  exists first rest,
    text = first ++ rest /\ length first = 200%nat /\ rest <> [] /\
    let preview := lit "First page text preview: " ++ first ++ lit "..." in
    (exists printed,
       stdout (analyze_pdf pdf_path w).2 = stdout w ++ printed /\
       forall l, In l printed ->
                 startswith (lit "First page text preview: ") l = true ->
                 l = preview) /\
    (writable sys_stdout pdf_path = true ->
     forallb (writable sys_stdout) (metadata_lines md) = true ->
     writable sys_stdout first = true ->
     analyze_pdf pdf_path w =
       (Ok tt,
        tick (emit (header_lines pdf_path (Z.of_nat (length (p :: ps))) enc
                      ++ metadata_lines md
                      ++ [ lit "First page text length: "
                             ++ str_of_int (Z.of_nat (length text));
                           preview;
                           lit "Non-whitespace characters: " ++ str_of_int k;
                           quality_text k text ])
                w))).
Proof.
  intros Hf Hr Hps Henc Hmd Hp Hlen k.
  exists (take 200 text), (drop 200 text).
  split; [by rewrite take_drop|].
  split; [rewrite length_take; lia|]. split.
  { intros Hnil. apply (f_equal length) in Hnil.
    rewrite length_drop in Hnil. simpl in Hnil. lia. }
  intros preview. split.
  - apply (printed_with_label _ _ _ _ _ _ _ _ _ _ _ Hf Hr Hps Henc Hmd Hp);
      [|done].
    rewrite !List.filter_app. unfold first_page_lines, quality_text.
    unfold metadata_lines.
    destruct (0 <? Z.of_nat (length text));
      by destruct md as [m|]; [destruct (size m =? 0)%nat|].
  - intros Hpath Hlines Htext.
    by rewrite (run_text _ _ _ _ _ _ Hf Hr Hps Henc Hmd Hpath Hlines p ps
                  text w eq_refl Hp Htext).
Qed.

(** C8: every line of the run that starts with
    [Non-whitespace characters: ] is that label followed by the number of
    alphanumeric characters of the first page's text; the line is printed,
    in a run that returns normally, whenever the stream can encode the
    path, the metadata lines and the preview.  The number is not the number
    of characters that are not whitespace: [#] and [@] are not whitespace
    and are not counted. *)
Theorem non_whitespace_line_counts_alnum (pdf_path : str) (f : File)
    (reader : PdfReader) (p : PageObject) (ps : list PageObject) (enc : bool)
    (md : option (gmap str str)) (text : str) (w : world) :
  open_rb pdf_path = Ok f ->
  PdfReader_new f = Ok reader ->
  pages reader = Ok (p :: ps) ->
  is_encrypted reader = Ok enc ->
  metadata reader = Ok md ->
  extract_text p = Ok text ->
  let k := Z.of_nat (length (List.filter isalnum text)) in
  (exists printed,
     stdout (analyze_pdf pdf_path w).2 = stdout w ++ printed /\
     forall l, In l printed ->
               startswith (lit "Non-whitespace characters: ") l = true ->
               l = lit "Non-whitespace characters: " ++ str_of_int k) /\
  (writable sys_stdout pdf_path = true ->
   forallb (writable sys_stdout) (metadata_lines md) = true ->
   writable sys_stdout (take 200 text) = true ->
   analyze_pdf pdf_path w =
     (Ok tt,
      tick (emit (header_lines pdf_path (Z.of_nat (length (p :: ps))) enc
                    ++ metadata_lines md
                    ++ [ lit "First page text length: "
                           ++ str_of_int (Z.of_nat (length text));
                         lit "First page text preview: "
                           ++ take 200 text ++ lit "...";
                         lit "Non-whitespace characters: " ++ str_of_int k;
                         quality_text k text ])
              w))) /\
  List.filter isalnum (lit "#@") = [] /\
  List.filter (fun c => negb (ascii_isspace c)) (lit "#@") = lit "#@" /\
  (text = lit "#@" ->
   lit "Non-whitespace characters: " ++ str_of_int k
     = lit "Non-whitespace characters: 0").
Proof.
  intros Hf Hr Hps Henc Hmd Hp k. split; [|split; [|split; [|split]]].
  - apply (printed_with_label _ _ _ _ _ _ _ _ _ _ _ Hf Hr Hps Henc Hmd Hp);
      [|done].
    rewrite !List.filter_app. unfold first_page_lines, quality_text.
    unfold metadata_lines.
    destruct (0 <? Z.of_nat (length text));
      by destruct md as [m|]; [destruct (size m =? 0)%nat|].
  - intros Hpath Hlines Htext.
    by rewrite (run_text _ _ _ _ _ _ Hf Hr Hps Henc Hmd Hpath Hlines p ps
                  text w eq_refl Hp Htext).
  - reflexivity.
  - reflexivity.
  - intros ->. reflexivity.
Qed.

(** C10: for a first page whose text has at most 200 characters, possibly
    none, every line of the run that starts with
    [First page text preview: ] is that label, the whole text, and [...];
    the line is printed, in a run that returns normally, whenever the
    stream can encode the path, the metadata lines and the text.  A text of
    exactly 200 characters and any longer text that starts with it give the
    same preview line. *)
Theorem preview_line_always_has_dots (pdf_path : str) (f : File)
    (reader : PdfReader) (p : PageObject) (ps : list PageObject) (enc : bool)
    (md : option (gmap str str)) (text : str) (w : world) :
  open_rb pdf_path = Ok f ->
  PdfReader_new f = Ok reader ->
  pages reader = Ok (p :: ps) ->
  is_encrypted reader = Ok enc ->
  metadata reader = Ok md ->
  extract_text p = Ok text ->
  (length text <= 200)%nat ->
  let k := Z.of_nat (length (List.filter isalnum text)) in
  let preview := lit "First page text preview: " ++ text ++ lit "..." in
  (exists printed,
     stdout (analyze_pdf pdf_path w).2 = stdout w ++ printed /\
     forall l, In l printed ->
               startswith (lit "First page text preview: ") l = true ->
               l = preview) /\
  (writable sys_stdout pdf_path = true ->
   forallb (writable sys_stdout) (metadata_lines md) = true ->
   writable sys_stdout text = true ->
   analyze_pdf pdf_path w =
     (Ok tt,
      tick (emit (header_lines pdf_path (Z.of_nat (length (p :: ps))) enc
                    ++ metadata_lines md
                    ++ [ lit "First page text length: "
                           ++ str_of_int (Z.of_nat (length text));
                         preview;
                         lit "Non-whitespace characters: " ++ str_of_int k;
                         quality_text k text ])
              w))) /\
  (forall path' f' reader' p' ps' enc' md' extra w',
     open_rb path' = Ok f' ->
     PdfReader_new f' = Ok reader' ->
     pages reader' = Ok (p' :: ps') ->
     is_encrypted reader' = Ok enc' ->
     metadata reader' = Ok md' ->
     extract_text p' = Ok (text ++ extra) ->
     length text = 200%nat ->
     writable sys_stdout path' = true ->
     forallb (writable sys_stdout) (metadata_lines md') = true ->
     writable sys_stdout text = true ->
     In preview (stdout (analyze_pdf path' w').2)).
Proof.
  intros Hf Hr Hps Henc Hmd Hp Hlen k preview.
  assert (Htake : take 200 text = text) by (apply take_ge; lia).
  split; [|split].
  - apply (printed_with_label _ _ _ _ _ _ _ _ _ _ _ Hf Hr Hps Henc Hmd Hp);
      [|done].
    rewrite !List.filter_app. unfold first_page_lines, quality_text.
    unfold metadata_lines. rewrite Htake.
    destruct (0 <? Z.of_nat (length text));
      by destruct md as [m|]; [destruct (size m =? 0)%nat|].
  - intros Hpath Hlines Htext. rewrite <- Htake in Htext.
    rewrite (run_text _ _ _ _ _ _ Hf Hr Hps Henc Hmd Hpath Hlines p ps text w
               eq_refl Hp Htext).
    unfold first_page_lines. fold k. by rewrite Htake.
  - intros path' f' reader' p' ps' enc' md' extra w' Hf' Hr' Hps' Henc' Hmd'
      Hp' H200 Hpath' Hlines' Htext.
    assert (Htake' : take 200 (text ++ extra) = text).
    { by rewrite take_app_length'. }
    rewrite <- Htake' in Htext.
    rewrite (run_text _ _ _ _ _ _ Hf' Hr' Hps' Henc' Hmd' Hpath' Hlines' p'
               ps' _ w' eq_refl Hp' Htext).
    unfold first_page_lines. rewrite Htake'.
    cbn [snd stdout tick emit]. rewrite !in_app_iff. right. right. right.
    simpl. tauto.
Qed.

(** ** Metadata and the page count *)

Lemma script_reached (pdf_path : str) (f : File) (reader : PdfReader)
    (ps : list PageObject) (enc : bool) (md : option (gmap str str)) :
  open_rb pdf_path = Ok f ->
  PdfReader_new f = Ok reader ->
  pages reader = Ok ps ->
  is_encrypted reader = Ok enc ->
  metadata reader = Ok md ->
  script pdf_path =
    (map Print (header_lines pdf_path (Z.of_nat (length ps)) enc
                  ++ metadata_lines md) ++ (page_events ps).1,
     (page_events ps).2).
Proof.
  intros Hf Hr Hps Henc Hmd. unfold script, page_events.
  rewrite Hf, Hr, Hps, Henc, Hmd, map_app.
  by destruct ps as [|p ps']; [|destruct (extract_text p)].
Qed.

Lemma page_events_after_metadata (ps : list PageObject) :
  forallb after_metadata (prints (page_events ps).1) = true.
Proof.
  unfold page_events. destruct ps as [|p ps]; [done|].
  destruct (extract_text p) as [text|e]; [|done].
  cbn [fst prints]. rewrite prints_map_Print.
  unfold first_page_lines, quality_text.
  by destruct (0 <? Z.of_nat (length text)).
Qed.

Lemma after_metadata_rest (rest : list str) :
  forallb after_metadata rest = true ->
  List.filter is_metadata_line rest = [] /\
  ~ In (lit "No metadata found") rest.
Proof.
  induction rest as [|l rest IH]; simpl; [tauto|].
  unfold after_metadata at 1. rewrite !andb_true_iff, !negb_true_iff.
  intros [[Hm Hn] Hrest]. destruct (IH Hrest) as [IH1 IH2].
  rewrite Hm. split; [exact IH1|].
  intros [Heq|Hin]; [|tauto]. subst l.
  by rewrite bool_decide_eq_false in Hn.
Qed.

(** What a handled run of some events adds to the output. *)
Lemma play_handler_appends (P : str -> bool) (tr : list event)
    (fin : result unit) (w : world) :
  forallb P (prints tr) = true ->
  (forall e, P (error_line e) = true) ->
  exists rest,
    stdout (match play sys_stdout tr fin w with
            | (Ok a, w') => (Ok a, w')
            | (Raise e, w') => print (error_line e) w'
            end).2 = stdout w ++ rest /\
    forallb P rest = true.
Proof.
  intros Hall Herr. unfold print, print_to.
  destruct (play_spec tr fin w)
    as [[_ ->]|(pre & s & post & -> & _ & _ & ->)].
  - destruct fin as [[]|e]; [by exists (prints tr)|].
    destruct (writable sys_stdout (error_line e)); [|by exists (prints tr)].
    exists (prints tr ++ [error_line e]). cbn [snd stdout emit after].
    rewrite <- app_assoc, forallb_app, Hall. simpl. by rewrite Herr.
  - rewrite prints_app, forallb_app in Hall.
    apply andb_true_iff in Hall as [Hpre _].
    destruct (writable sys_stdout (error_line _)); [|by exists (prints pre)].
    exists (prints pre ++ [error_line (encode_error sys_stdout s)]).
    cbn [snd stdout emit after].
    rewrite <- app_assoc, forallb_app, Hpre. simpl. by rewrite Herr.
Qed.

Lemma run_after_metadata (pdf_path : str) (f : File) (reader : PdfReader)
    (ps : list PageObject) (enc : bool) (md : option (gmap str str))
    (w : world) :
  open_rb pdf_path = Ok f ->
  PdfReader_new f = Ok reader ->
  pages reader = Ok ps ->
  is_encrypted reader = Ok enc ->
  metadata reader = Ok md ->
  writable sys_stdout pdf_path = true ->
  forallb (writable sys_stdout) (metadata_lines md) = true ->
  exists rest,
    stdout (analyze_pdf pdf_path w).2 =
      stdout w ++ header_lines pdf_path (Z.of_nat (length ps)) enc
        ++ metadata_lines md ++ rest /\
    forallb after_metadata rest = true.
Proof.
  intros Hf Hr Hps Henc Hmd Hpath Hlines.
  rewrite analyze_pdf_script, (script_reached _ _ _ _ _ _ Hf Hr Hps Henc Hmd).
  cbn [fst snd]. rewrite play_app, play_writable.
  2:{ rewrite prints_map_Print, forallb_app, writable_header_lines.
      by rewrite Hpath, Hlines. }
  rewrite after_lines.
  destruct (play_handler_appends after_metadata (page_events ps).1
              (page_events ps).2
              (emit (header_lines pdf_path (Z.of_nat (length ps)) enc
                       ++ metadata_lines md) w))
    as (rest & Hout & Hrest);
    [apply page_events_after_metadata|done|].
  exists rest. split; [|exact Hrest].
  rewrite Hout. simpl. by rewrite <- !app_assoc.
Qed.

(** The lines of a run when no line of the script and no error line
    satisfies [P]. *)
Lemma run_without (P : str -> bool) (pdf_path : str) (w : world) :
  List.filter P (prints (script pdf_path).1) = [] ->
  (forall e, P (error_line e) = false) ->
  exists printed,
    stdout (analyze_pdf pdf_path w).2 = stdout w ++ printed /\
    List.filter P printed = [].
Proof.
  intros Hnone Herr.
  destruct (run_printed pdf_path w)
    as (done & rest & tail & Htr & Hout & _ & Htail).
  rewrite Htr in Hnone. apply prints_prefix_filter in Hnone.
  exists (prints done ++ tail). split; [exact Hout|].
  rewrite List.filter_app, Hnone.
  destruct Htail as [->|(e & w1 & _ & -> & _)]; [done|].
  simpl. by rewrite Herr.
Qed.

(** C5, as amended: for a document whose metadata mapping is present and
    not empty, on a stream that can encode the path and the three field
    lines, the run prints after the header the three lines
    [PDF Version: ], [Creator: ] and [Producer: ], each with the value of
    its key or [Unknown] when the key is absent, and no other metadata line
    nor [No metadata found].  Without a [/Creator] key the second line is
    [Creator: Unknown]; the other two are as before. *)
Theorem metadata_fields_default_to_unknown (pdf_path : str) (f : File)
    (reader : PdfReader) (ps : list PageObject) (enc : bool)
    (m : gmap str str) (w : world) :
  open_rb pdf_path = Ok f ->
  PdfReader_new f = Ok reader ->
  pages reader = Ok ps ->
  is_encrypted reader = Ok enc ->
  metadata reader = Ok (Some m) ->
  m <> ∅ ->
  let field key :=
    match m !! key with Some v => v | None => lit "Unknown" end in
  let header := header_lines pdf_path (Z.of_nat (length ps)) enc in
  let fields :=
    [ lit "PDF Version: " ++ field (lit "/PDF");
      lit "Creator: " ++ field (lit "/Creator");
      lit "Producer: " ++ field (lit "/Producer") ] in
  writable sys_stdout pdf_path = true ->
  forallb (writable sys_stdout) fields = true ->
  exists rest,
    stdout (analyze_pdf pdf_path w).2 = stdout w ++ header ++ fields ++ rest /\
    List.filter is_metadata_line (header ++ fields ++ rest) = fields /\
    ~ In (lit "No metadata found") (header ++ fields ++ rest) /\
    (m !! lit "/Creator" = None ->
     fields = [ lit "PDF Version: " ++ field (lit "/PDF");
                lit "Creator: Unknown";
                lit "Producer: " ++ field (lit "/Producer") ]).
Proof.
  intros Hf Hr Hps Henc Hmd Hne field header fields Hpath Hfields.
  assert (Hsize : (size m =? 0)%nat = false).
  { apply Nat.eqb_neq. by rewrite map_size_empty_iff. }
  assert (Hlines : metadata_lines (Some m) = fields).
  { unfold metadata_lines. by rewrite Hsize. }
  destruct (run_after_metadata _ _ _ _ _ _ w Hf Hr Hps Henc Hmd Hpath)
    as (rest & Hout & Hrest); [by rewrite Hlines|].
  apply after_metadata_rest in Hrest as [Hfil Hnot].
  rewrite Hlines in Hout.
  exists rest. split; [exact Hout|]. split; [|split].
  - rewrite !List.filter_app, Hfil. reflexivity.
  - rewrite !in_app_iff. intros [Hin|[Hin|Hin]]; [| |tauto].
    + simpl in Hin. destruct Hin as [H|[H|[H|[H|[]]]]]; discriminate H.
    + simpl in Hin. destruct Hin as [H|[H|[H|[]]]]; discriminate H.
  - intros Hnone. unfold fields, field. by rewrite Hnone.
Qed.

(** C7, as amended: for a document whose metadata is [None] or the empty
    mapping, no line of the run is one of the three metadata field lines;
    on a stream that can encode the path, the run prints after the header
    the one line [No metadata found], once. *)
Theorem no_metadata_found_line (pdf_path : str) (f : File)
    (reader : PdfReader) (ps : list PageObject) (enc : bool)
    (md : option (gmap str str)) (w : world) :
  open_rb pdf_path = Ok f ->
  PdfReader_new f = Ok reader ->
  pages reader = Ok ps ->
  is_encrypted reader = Ok enc ->
  metadata reader = Ok md ->
  md = None \/ md = Some ∅ ->
  let header := header_lines pdf_path (Z.of_nat (length ps)) enc in
  (exists printed,
     stdout (analyze_pdf pdf_path w).2 = stdout w ++ printed /\
     List.filter is_metadata_line printed = []) /\
  (writable sys_stdout pdf_path = true ->
   exists rest,
     stdout (analyze_pdf pdf_path w).2 =
       stdout w ++ header ++ [lit "No metadata found"] ++ rest /\
     ~ In (lit "No metadata found") (header ++ rest)).
Proof.
  intros Hf Hr Hps Henc Hmd Hfalsy header.
  assert (Hlines : metadata_lines md = [lit "No metadata found"]).
  { destruct Hfalsy as [->| ->]; [reflexivity|].
    unfold metadata_lines. by rewrite map_size_empty. }
  split.
  - apply run_without; [|done].
    rewrite (script_reached _ _ _ _ _ _ Hf Hr Hps Henc Hmd). cbn [fst].
    rewrite prints_app, prints_map_Print, Hlines, !List.filter_app.
    by rewrite (proj1 (after_metadata_rest _ (page_events_after_metadata ps))).
  - intros Hpath.
    destruct (run_after_metadata _ _ _ _ _ _ w Hf Hr Hps Henc Hmd Hpath)
      as (rest & Hout & Hrest); [by rewrite Hlines|].
    apply after_metadata_rest in Hrest as [_ Hnot].
    rewrite Hlines in Hout. exists rest. split; [exact Hout|].
    rewrite in_app_iff. intros [Hin|Hin]; [|tauto].
    simpl in Hin. destruct Hin as [H|[H|[H|[H|[]]]]]; discriminate H.
Qed.

(** C6, as amended: for a document with no pages, [extract_text] is not
    called and none of the four first-page lines is printed; on a stream
    that can encode the path and the metadata lines, the run returns
    normally and ends with the one line [No pages found]. *)
Theorem no_pages_found_line (pdf_path : str) (f : File) (reader : PdfReader)
    (enc : bool) (md : option (gmap str str)) (w : world) :
  open_rb pdf_path = Ok f ->
  PdfReader_new f = Ok reader ->
  pages reader = Ok [] ->
  is_encrypted reader = Ok enc ->
  metadata reader = Ok md ->
  let printed :=
    header_lines pdf_path 0 enc ++ metadata_lines md
      ++ [lit "No pages found"] in
  extract_text_calls (analyze_pdf pdf_path w).2 = extract_text_calls w /\
  (exists lines,
     stdout (analyze_pdf pdf_path w).2 = stdout w ++ lines /\
     List.filter is_first_page_line lines = []) /\
  (writable sys_stdout pdf_path = true ->
   forallb (writable sys_stdout) (metadata_lines md) = true ->
   analyze_pdf pdf_path w = (Ok tt, emit printed w) /\
   List.filter is_first_page_line printed = [] /\
   List.filter (fun l => bool_decide (l = lit "No pages found")) printed
     = [lit "No pages found"]).
Proof.
  intros Hf Hr Hps Henc Hmd printed.
  pose proof (script_no_pages _ _ _ _ _ _ Hf Hr Hps Henc Hmd eq_refl) as Hscript.
  assert (Hnone : List.filter is_first_page_line printed = []).
  { unfold printed, header_lines, metadata_lines.
    by destruct md as [m|]; [destruct (size m =? 0)%nat|]. }
  split; [|split].
  - destruct (run_printed pdf_path w)
      as (done & rest & tail & Htr & _ & Hcalls & _).
    rewrite Hcalls. rewrite Hscript in Htr. cbn [fst] in Htr.
    apply (f_equal extracts) in Htr.
    rewrite extracts_map_Print, extracts_app in Htr. lia.
  - apply run_without; [|done]. rewrite Hscript. cbn [fst].
    by rewrite prints_map_Print.
  - intros Hpath Hlines.
    split; [exact (run_no_pages _ _ _ _ _ _ Hf Hr Hps Henc Hmd Hpath Hlines
                     w eq_refl)|].
    split; [exact Hnone|].
    unfold printed, header_lines, metadata_lines.
    by destruct md as [m|]; [destruct (size m =? 0)%nat|].
Qed.

(** ** Further properties of the script *)

(** The body stops at the first line the stream cannot encode. *)
Lemma play_stops (pre post : list event) (s : str) (fin : result unit)
    (w : world) :
  forallb (writable sys_stdout) (prints pre) = true ->
  writable sys_stdout s = false ->
  play sys_stdout (pre ++ Print s :: post) fin w
    = (Raise (encode_error sys_stdout s), after pre w).
Proof.
  intros Hpre Hs. rewrite play_app, (play_writable _ _ _ Hpre).
  cbn [play]. by rewrite Hs.
Qed.

(** What a handled run of some events adds to the world does not depend
    on the world. *)
Lemma handled_frame (tr : list event) (fin : result unit) :
  exists (r : result unit) (lines : list str) (n : nat),
    forall w,
      match play sys_stdout tr fin w with
      | (Ok a, w') => (Ok a, w')
      | (Raise e, w') => print (error_line e) w'
      end = (r, {| stdout := stdout w ++ lines;
                   extract_text_calls := n + extract_text_calls w |}).
Proof.
  unfold print, print_to.
  destruct (play_spec tr fin (World [] 0))
    as [[Hall _]|(pre & s & post & -> & Hpre & Hs & _)].
  - destruct fin as [[]|e].
    + exists (Ok tt), (prints tr), (extracts tr). intros w.
      by rewrite (play_writable _ _ _ Hall).
    + destruct (writable sys_stdout (error_line e)) eqn:He.
      * exists (Ok tt), (prints tr ++ [error_line e]), (extracts tr).
        intros w. rewrite (play_writable _ _ _ Hall), He.
        unfold emit, after. simpl. by rewrite <- app_assoc.
      * exists (Raise (encode_error sys_stdout (error_line e))), (prints tr),
          (extracts tr).
        intros w. by rewrite (play_writable _ _ _ Hall), He.
  - destruct (writable sys_stdout (error_line (encode_error sys_stdout s)))
      eqn:He.
    + exists (Ok tt),
        (prints pre ++ [error_line (encode_error sys_stdout s)]),
        (extracts pre).
      intros w. rewrite (play_stops _ _ _ _ _ Hpre Hs), He.
      unfold emit, after. simpl. by rewrite <- app_assoc.
    + exists (Raise (encode_error sys_stdout
                       (error_line (encode_error sys_stdout s)))),
        (prints pre), (extracts pre).
      intros w. by rewrite (play_stops _ _ _ _ _ Hpre Hs), He.
Qed.

(** A run whose script starts with lines the stream can encode. *)
Lemma run_from (pdf_path : str) (pre : list str) (tr : list event)
    (w : world) :
  (script pdf_path).1 = map Print pre ++ tr ->
  forallb (writable sys_stdout) pre = true ->
  exists rest, stdout (analyze_pdf pdf_path w).2 = stdout w ++ pre ++ rest.
Proof.
  intros Htr Hpre. rewrite analyze_pdf_script, Htr, play_app, play_writable.
  2:{ by rewrite prints_map_Print. }
  rewrite after_lines.
  destruct (handled_frame tr (script pdf_path).2) as (r & lines & n & Hrun).
  rewrite Hrun. exists lines. cbn [snd stdout emit]. by rewrite <- app_assoc.
Qed.

(** X1: when the file cannot be opened, or opens and cannot be parsed, the
    run prints no banner and no page or metadata line, and no page is read.
    If the stream can encode the description of the exception the run
    prints the error line, and nothing else, and returns normally;
    otherwise it prints nothing and raises the encoder's exception. *)
Theorem open_or_parse_failure_prints_only_error (pdf_path : str) (e : exn)
    (w : world) :
  open_rb pdf_path = Raise e \/
    (exists f, open_rb pdf_path = Ok f /\ PdfReader_new f = Raise e) ->
  analyze_pdf pdf_path w =
    if writable sys_stdout (str_of_exn e)
    then (Ok tt, emit [lit "Error analyzing PDF: " ++ str_of_exn e] w)
    else (Raise (encode_error sys_stdout
                   (lit "Error analyzing PDF: " ++ str_of_exn e)), w).
Proof.
  intros Hfail. apply analyze_pdf_raise.
  rewrite analyze_body_script. unfold script.
  destruct Hfail as [Hf|(f & Hf & Hr)]; rewrite Hf; [done|]. by rewrite Hr.
Qed.

(** X2: once the page count and the encryption flag have been read, on a
    stream that can encode the path, the output starts with the banner,
    [File: <path>], [Pages: <n>] for the number [n] of pages and
    [Is Encrypted: True] or [False], whatever the metadata and the first
    page do afterwards. *)
Theorem header_lines_come_first (pdf_path : str) (f : File)
    (reader : PdfReader) (ps : list PageObject) (enc : bool) (w : world) :
  open_rb pdf_path = Ok f ->
  PdfReader_new f = Ok reader ->
  pages reader = Ok ps ->
  is_encrypted reader = Ok enc ->
  writable sys_stdout pdf_path = true ->
  exists rest,
    stdout (analyze_pdf pdf_path w).2 =
      stdout w
        ++ [ lit "=== PDF Analysis ===";
             lit "File: " ++ pdf_path;
             lit "Pages: " ++ str_of_int (Z.of_nat (length ps));
             lit "Is Encrypted: " ++ (if enc then lit "True" else lit "False") ]
        ++ rest.
Proof.
  intros Hf Hr Hps Henc Hpath.
  destruct (metadata reader) as [md|e] eqn:Hmd.
  - apply (run_from _ (header_lines pdf_path (Z.of_nat (length ps)) enc)
             (map Print (metadata_lines md) ++ (page_events ps).1)).
    + rewrite (script_reached _ _ _ _ _ _ Hf Hr Hps Henc Hmd). cbn [fst].
      by rewrite map_app, <- app_assoc.
    + by rewrite writable_header_lines.
  - apply (run_from _ (header_lines pdf_path (Z.of_nat (length ps)) enc) []).
    + unfold script. by rewrite Hf, Hr, Hps, Henc, Hmd, app_nil_r.
    + by rewrite writable_header_lines.
Qed.

(** X3: when reading the page count fails, on a stream that can encode the
    path, the banner and the [File:] line are already printed.  The error
    line follows if the stream can encode the description, and the run
    returns normally; otherwise nothing follows and the run raises. *)
Theorem page_count_failure_after_banner (pdf_path : str) (f : File)
    (reader : PdfReader) (e : exn) (w : world) :
  open_rb pdf_path = Ok f ->
  PdfReader_new f = Ok reader ->
  pages reader = Raise e ->
  writable sys_stdout pdf_path = true ->
  analyze_pdf pdf_path w =
    if writable sys_stdout (str_of_exn e)
    then (Ok tt,
          emit [ lit "=== PDF Analysis ===";
                 lit "File: " ++ pdf_path;
                 lit "Error analyzing PDF: " ++ str_of_exn e ] w)
    else (Raise (encode_error sys_stdout
                   (lit "Error analyzing PDF: " ++ str_of_exn e)),
          emit [ lit "=== PDF Analysis ==="; lit "File: " ++ pdf_path ] w).
Proof.
  intros Hf Hr Hps Hpath.
  assert (Hrun : analyze_body pdf_path w =
            (Raise e,
             emit [lit "=== PDF Analysis ==="; lit "File: " ++ pdf_path] w)).
  { rewrite analyze_body_script. unfold script. rewrite Hf, Hr, Hps.
    cbn [fst snd]. rewrite play_writable.
    - unfold after, emit. simpl. done.
    - cbn [prints forallb]. change (writable sys_stdout
        (lit "File: " ++ pdf_path)) with (writable sys_stdout pdf_path).
      by rewrite Hpath. }
  rewrite (analyze_pdf_raise _ _ _ _ Hrun).
  change (writable sys_stdout (error_line e))
    with (writable sys_stdout (str_of_exn e)).
  destruct (writable sys_stdout (str_of_exn e)); [|done].
  by rewrite emit_emit.
Qed.

(** X4: when reading the metadata fails, on a stream that can encode the
    path, the run prints the four header lines, then the error line if the
    stream can encode the description; the first page is not looked at,
    however many pages there are. *)
Theorem metadata_failure_skips_first_page (pdf_path : str) (f : File)
    (reader : PdfReader) (ps : list PageObject) (enc : bool) (e : exn)
    (w : world) :
  open_rb pdf_path = Ok f ->
  PdfReader_new f = Ok reader ->
  pages reader = Ok ps ->
  is_encrypted reader = Ok enc ->
  metadata reader = Raise e ->
  writable sys_stdout pdf_path = true ->
  let header :=
    [ lit "=== PDF Analysis ===";
      lit "File: " ++ pdf_path;
      lit "Pages: " ++ str_of_int (Z.of_nat (length ps));
      lit "Is Encrypted: " ++ str_of_bool enc ] in
  analyze_pdf pdf_path w =
    (if writable sys_stdout (str_of_exn e)
     then (Ok tt,
           emit (header ++ [lit "Error analyzing PDF: " ++ str_of_exn e]) w)
     else (Raise (encode_error sys_stdout
                    (lit "Error analyzing PDF: " ++ str_of_exn e)),
           emit header w)) /\
  extract_text_calls (analyze_pdf pdf_path w).2 = extract_text_calls w.
Proof.
  intros Hf Hr Hps Henc Hmd Hpath header.
  assert (Hrun : analyze_body pdf_path w = (Raise e, emit header w)).
  { rewrite analyze_body_script. unfold script.
    rewrite Hf, Hr, Hps, Henc, Hmd. cbn [fst snd]. rewrite play_writable.
    - by rewrite after_lines.
    - by rewrite prints_map_Print, writable_header_lines. }
  rewrite (analyze_pdf_raise _ _ _ _ Hrun).
  change (writable sys_stdout (error_line e))
    with (writable sys_stdout (str_of_exn e)).
  destruct (writable sys_stdout (str_of_exn e)); [|done].
  by rewrite emit_emit.
Qed.


(** X6: a run calls [extract_text] at most once. *)
Theorem extract_text_called_at_most_once (pdf_path : str) (w : world) :
  (extract_text_calls w <= extract_text_calls (analyze_pdf pdf_path w).2
     <= S (extract_text_calls w))%nat.
Proof.
  destruct (run_printed pdf_path w)
    as (done & rest & tail & Htr & _ & Hcalls & _).
  destruct (script_size pdf_path) as (_ & _ & Hone).
  rewrite Htr, extracts_app in Hone. lia.
Qed.


(** The IEEE quotient of an integer by itself is 1.0. *)
Lemma SFdiv_self (p : positive) :
  SFdiv prec emax (S754_finite false p 0) (S754_finite false p 0)
    = S754_finite false 4503599627370496 (-52).
Proof.
  unfold SFdiv, SFdiv_core_binary.
  replace (Zdigits2 (Z.pos p) + 0 - (Zdigits2 (Z.pos p) + 0)) with 0 by lia.
  change (Z.min (fexp prec emax 0) (0 - 0)) with (-53).
  change (0 - 0 - -53) with 53.
  cbv iota beta.
  rewrite Z.shiftl_mul_pow2 by lia.
  pose proof (Z.div_mul (2 ^ 53) (Z.pos p) ltac:(lia)) as Hq.
  pose proof (Z.mod_mul (2 ^ 53) (Z.pos p) ltac:(lia)) as Hr.
  rewrite (Z.mul_comm (2 ^ 53)) in Hq, Hr.
  unfold Z.div in Hq. unfold Z.modulo in Hr.
  destruct (Z.div_eucl (Z.pos p * 2 ^ 53) (Z.pos p)) as [q r].
  simpl in Hq, Hr. subst q r.
  unfold new_location. destruct (Z.even (Z.pos p)); reflexivity.
Qed.

Lemma quality_text_none (text : str) :
  text <> [] ->
  quality_text 0 text = lit "Text quality ratio: 0.0%".
Proof.
  intros Hne. unfold quality_text.
  destruct text as [|c text]; [done|].
  change (length (c :: text)) with (S (length text)).
  rewrite Nat2Z.inj_succ. unfold Z.succ.
  destruct (Z.of_nat (length text) + 1) as [|n|n] eqn:Hn; [lia| |lia].
  reflexivity.
Qed.

Lemma quality_text_all (text : str) :
  text <> [] ->
  quality_text (Z.of_nat (length text)) text
    = lit "Text quality ratio: 100.0%".
Proof.
  intros Hne. unfold quality_text.
  destruct text as [|c text]; [done|].
  change (length (c :: text)) with (S (length text)).
  rewrite Nat2Z.inj_succ. unfold Z.succ.
  destruct (Z.of_nat (length text) + 1) as [|n|n] eqn:Hn; [lia| |lia].
  cbn [Z.ltb Z.compare float_of_int]. rewrite SFdiv_self. reflexivity.
Qed.

(** The line of the script that starts with [Text quality ratio: ], when
    there is one. *)
Lemma ratio_line_of_script (pdf_path : str) (n : Z) (enc : bool)
    (md : option (gmap str str)) (text : str) :
  text <> [] ->
  List.filter (startswith (lit "Text quality ratio: "))
      (header_lines pdf_path n enc ++ metadata_lines md
         ++ first_page_lines text)
    = [quality_text (Z.of_nat (length (List.filter isalnum text))) text].
Proof.
  intros Hne.
  assert (Hpos : (0 <? Z.of_nat (length text)) = true).
  { apply Z.ltb_lt. destruct text; [done|simpl; lia]. }
  rewrite !List.filter_app. unfold first_page_lines, quality_text.
  rewrite Hpos. unfold metadata_lines.
  by destruct md as [m'|]; [destruct (size m' =? 0)%nat|].
Qed.

(** X8: for a first page whose text is not empty and has no alphanumeric
    character, every line of the run that starts with
    [Text quality ratio: ] is [Text quality ratio: 0.0%], with the label
    and one decimal, unlike the line for the empty text.  On a stream that
    can encode the path, the metadata lines and the preview, the run
    prints the count 0 and ends with that line. *)
Theorem no_alnum_gives_zero_ratio (pdf_path : str) (f : File)
    (reader : PdfReader) (p : PageObject) (ps : list PageObject) (enc : bool)
    (md : option (gmap str str)) (text : str) (w : world) :
  open_rb pdf_path = Ok f ->
  PdfReader_new f = Ok reader ->
  pages reader = Ok (p :: ps) ->
  is_encrypted reader = Ok enc ->
  metadata reader = Ok md ->
  extract_text p = Ok text ->
  text <> [] ->
  List.filter isalnum text = [] ->
  (exists printed,
     stdout (analyze_pdf pdf_path w).2 = stdout w ++ printed /\
     forall l, In l printed ->
               startswith (lit "Text quality ratio: ") l = true ->
               l = lit "Text quality ratio: 0.0%") /\
  (writable sys_stdout pdf_path = true ->
   forallb (writable sys_stdout) (metadata_lines md) = true ->
   writable sys_stdout (take 200 text) = true ->
   analyze_pdf pdf_path w =
     (Ok tt,
      tick (emit (header_lines pdf_path (Z.of_nat (length (p :: ps))) enc
                    ++ metadata_lines md
                    ++ [ lit "First page text length: "
                           ++ str_of_int (Z.of_nat (length text));
                         lit "First page text preview: "
                           ++ take 200 text ++ lit "...";
                         lit "Non-whitespace characters: 0";
                         lit "Text quality ratio: 0.0%" ])
              w))).
Proof.
  intros Hf Hr Hps Henc Hmd Hp Hne Hnone. split.
  - apply (printed_with_label _ _ _ _ _ _ _ _ _ _ _ Hf Hr Hps Henc Hmd Hp);
      [|done].
    rewrite (ratio_line_of_script _ _ _ _ _ Hne), Hnone.
    change (Z.of_nat (length [])) with 0.
    by rewrite (quality_text_none _ Hne).
  - intros Hpath Hlines Htext.
    rewrite (run_text _ _ _ _ _ _ Hf Hr Hps Henc Hmd Hpath Hlines p ps text w
               eq_refl Hp Htext).
    unfold first_page_lines. rewrite Hnone.
    change (Z.of_nat (length [])) with 0.
    by rewrite (quality_text_none _ Hne).
Qed.

(** X9: for a first page whose text is not empty and consists of
    alphanumeric characters only, every line of the run that starts with
    [Text quality ratio: ] is [Text quality ratio: 100.0%].  On a stream
    that can encode the path, the metadata lines and the preview, the run
    prints the text length as the count and ends with that line. *)
Theorem all_alnum_gives_full_ratio (pdf_path : str) (f : File)
    (reader : PdfReader) (p : PageObject) (ps : list PageObject) (enc : bool)
    (md : option (gmap str str)) (text : str) (w : world) :
  open_rb pdf_path = Ok f ->
  PdfReader_new f = Ok reader ->
  pages reader = Ok (p :: ps) ->
  is_encrypted reader = Ok enc ->
  metadata reader = Ok md ->
  extract_text p = Ok text ->
  text <> [] ->
  List.filter isalnum text = text ->
  (exists printed,
     stdout (analyze_pdf pdf_path w).2 = stdout w ++ printed /\
     forall l, In l printed ->
               startswith (lit "Text quality ratio: ") l = true ->
               l = lit "Text quality ratio: 100.0%") /\
  (writable sys_stdout pdf_path = true ->
   forallb (writable sys_stdout) (metadata_lines md) = true ->
   writable sys_stdout (take 200 text) = true ->
   analyze_pdf pdf_path w =
     (Ok tt,
      tick (emit (header_lines pdf_path (Z.of_nat (length (p :: ps))) enc
                    ++ metadata_lines md
                    ++ [ lit "First page text length: "
                           ++ str_of_int (Z.of_nat (length text));
                         lit "First page text preview: "
                           ++ take 200 text ++ lit "...";
                         lit "Non-whitespace characters: "
                           ++ str_of_int (Z.of_nat (length text));
                         lit "Text quality ratio: 100.0%" ])
              w))).
Proof.
  intros Hf Hr Hps Henc Hmd Hp Hne Hall. split.
  - apply (printed_with_label _ _ _ _ _ _ _ _ _ _ _ Hf Hr Hps Henc Hmd Hp);
      [|done].
    rewrite (ratio_line_of_script _ _ _ _ _ Hne), Hall.
    by rewrite (quality_text_all _ Hne).
  - intros Hpath Hlines Htext.
    rewrite (run_text _ _ _ _ _ _ Hf Hr Hps Henc Hmd Hpath Hlines p ps text w
               eq_refl Hp Htext).
    unfold first_page_lines. rewrite Hall.
    by rewrite (quality_text_all _ Hne).
Qed.

(** X10: the program analyses the one path written in it.  If that file
    cannot be opened the program prints the error line only and returns
    normally, or, on a stream that cannot encode the description of the
    exception, prints nothing and raises; if the file opens and parses,
    the output starts with the banner and
    [File: 8.25.25IPanalysis.md.pdf]. *)
Theorem main_analyzes_fixed_path (w : world) :
  (forall e,
     open_rb (lit "8.25.25IPanalysis.md.pdf") = Raise e ->
     main w =
       if writable sys_stdout (str_of_exn e)
       then (Ok tt, emit [lit "Error analyzing PDF: " ++ str_of_exn e] w)
       else (Raise (encode_error sys_stdout
                      (lit "Error analyzing PDF: " ++ str_of_exn e)), w)) /\
  (forall f reader,
     open_rb (lit "8.25.25IPanalysis.md.pdf") = Ok f ->
     PdfReader_new f = Ok reader ->
     exists rest,
       stdout (main w).2 =
         stdout w
           ++ [ lit "=== PDF Analysis ===";
                lit "File: 8.25.25IPanalysis.md.pdf" ]
           ++ rest).
Proof.
  unfold main. split.
  - intros e Hf. apply analyze_pdf_raise.
    rewrite analyze_body_script. unfold script. by rewrite Hf.
  - intros f reader Hf Hr.
    assert (Hshape : exists tr,
              (script (lit "8.25.25IPanalysis.md.pdf")).1 =
                map Print [ lit "=== PDF Analysis ===";
                            lit "File: 8.25.25IPanalysis.md.pdf" ] ++ tr).
    { unfold script. rewrite Hf, Hr.
      destruct (pages reader) as [ps|e]; [|by exists []].
      destruct (is_encrypted reader) as [enc|e]; [|by eexists].
      destruct (metadata reader) as [md|e]; [|by eexists].
      destruct ps as [|p ps]; [|destruct (extract_text p)]; by eexists. }
    destruct Hshape as [tr Htr]. by apply (run_from _ _ tr).
Qed.

(** X14: a first page whose preview the stream cannot encode, on a stream
    that can encode the path and the metadata lines.  The [print] of the
    preview raises inside the [try]: the length line is printed already,
    the preview, the count and the ratio are not, and the handler reports
    the encoder's exception, or raises in turn if the stream cannot encode
    its description either. *)
Theorem unencodable_preview_is_reported (pdf_path : str) (f : File)
    (reader : PdfReader) (p : PageObject) (ps : list PageObject) (enc : bool)
    (md : option (gmap str str)) (text : str) (w : world) :
  open_rb pdf_path = Ok f ->
  PdfReader_new f = Ok reader ->
  pages reader = Ok (p :: ps) ->
  is_encrypted reader = Ok enc ->
  metadata reader = Ok md ->
  extract_text p = Ok text ->
  writable sys_stdout pdf_path = true ->
  forallb (writable sys_stdout) (metadata_lines md) = true ->
  writable sys_stdout (take 200 text) = false ->
  let e :=
    encode_error sys_stdout
      (lit "First page text preview: " ++ take 200 text ++ lit "...") in
  let printed :=
    header_lines pdf_path (Z.of_nat (length (p :: ps))) enc
      ++ metadata_lines md
      ++ [ lit "First page text length: "
             ++ str_of_int (Z.of_nat (length text)) ] in
  analyze_pdf pdf_path w =
    if writable sys_stdout (str_of_exn e)
    then (Ok tt,
          tick (emit (printed ++ [lit "Error analyzing PDF: " ++ str_of_exn e])
                  w))
    else (Raise (encode_error sys_stdout
                   (lit "Error analyzing PDF: " ++ str_of_exn e)),
          tick (emit printed w)).
Proof.
  intros Hf Hr Hps Henc Hmd Hp Hpath Hlines Htext e printed.
  set (upto := header_lines pdf_path (Z.of_nat (length (p :: ps))) enc
                 ++ metadata_lines md).
  set (len := lit "First page text length: "
                ++ str_of_int (Z.of_nat (length text))).
  assert (Hrun : analyze_body pdf_path w = (Raise e, tick (emit printed w))).
  { rewrite analyze_body_script.
    rewrite (script_text _ _ _ _ _ _ Hf Hr Hps Henc Hmd p ps text eq_refl Hp).
    cbn [fst snd]. fold upto. unfold first_page_lines. cbn [map]. fold len.
    set (preview := lit "First page text preview: "
                      ++ take 200 text ++ lit "...").
    match goal with
    | |- context [Print preview :: ?post] =>
        replace (map Print upto ++ Extract :: Print len :: Print preview :: post)
          with ((map Print upto ++ [Extract; Print len])
                  ++ Print preview :: post)
          by (by rewrite <- app_assoc)
    end.
    rewrite play_stops.
    - rewrite after_app, after_extract, after_print, after_nil, after_lines.
      unfold printed. fold upto len.
      by rewrite emit_tick, emit_emit.
    - rewrite prints_app. cbn [prints]. rewrite prints_map_Print.
      rewrite forallb_app. unfold upto.
      rewrite forallb_app, writable_header_lines, Hpath, Hlines.
      cbn [forallb]. unfold len.
      change (writable sys_stdout
                (lit "First page text length: "
                   ++ str_of_int (Z.of_nat (length text))))
        with (writable sys_stdout (str_of_int (Z.of_nat (length text)))).
      by rewrite writable_str_of_int.
    - unfold preview.
      change (writable sys_stdout
                (lit "First page text preview: " ++ take 200 text ++ lit "..."))
        with (writable sys_stdout (take 200 text ++ lit "...")).
      by rewrite writable_app, Htext. }
  rewrite (analyze_pdf_raise _ _ _ _ Hrun).
  change (writable sys_stdout (error_line e))
    with (writable sys_stdout (str_of_exn e)).
  destruct (writable sys_stdout (str_of_exn e)); [|done].
  by rewrite <- emit_tick, emit_emit, emit_tick.
Qed.


(** A run whose script starts with lines the stream can encode goes on
    from the world in which they are printed. *)
Lemma run_split (pdf_path : str) (pre : list str) (tr : list event)
    (fin : result unit) (w : world) :
  script pdf_path = (map Print pre ++ tr, fin) ->
  forallb (writable sys_stdout) pre = true ->
  analyze_pdf pdf_path w =
    match play sys_stdout tr fin (emit pre w) with
    | (Ok a, w') => (Ok a, w')
    | (Raise e, w') => print (error_line e) w'
    end.
Proof.
  intros Hscript Hpre. rewrite analyze_pdf_script, Hscript. cbn [fst snd].
  rewrite play_app, play_writable by (by rewrite prints_map_Print).
  by rewrite after_lines.
Qed.

End Analyzer.

(** ** The script on given readers and on the sample documents *)

(** The script on one reader, whatever the path. *)
Abbreviation run_on unicode_isalnum out reader pdf_path w :=
  (analyze_pdf unicode_isalnum out unit (fun _ => Ok tt) (fun _ => Ok reader)
     pdf_path w).

Abbreviation demo_body out path :=
  (analyze_body Demo.unicode_isalnum out str Demo.open_rb Demo.PdfReader_new
     path Demo.w0).
Abbreviation demo_run out path :=
  (analyze_pdf Demo.unicode_isalnum out str Demo.open_rb Demo.PdfReader_new
     path Demo.w0).

(** C2: a first page whose extracted text is empty.  No line of the run
    carries the label [Text quality ratio: ], on any stream: the label
    belongs to the first branch of the conditional expression of line 31
    only.  On a stream that can encode the path and the metadata lines the
    run does not fail, there is no division by zero, and its last line is
    the bare [0%]. *)
Theorem empty_text_prints_bare_percent (unicode_isalnum : codepoint -> bool)
    (out : stream) (pdf_path : str) (ps : list PageObject) (enc : bool)
    (md : option (gmap str str)) (w : world) :
  let first_page := {| extract_text := Ok [] |} in
  let reader :=
    {| pages := Ok (first_page :: ps);
       is_encrypted := Ok enc;
       metadata := Ok md |} in
  let printed :=
    header_lines pdf_path (Z.of_nat (length (first_page :: ps))) enc
      ++ metadata_lines md
      ++ [ lit "First page text length: 0";
           lit "First page text preview: ...";
           lit "Non-whitespace characters: 0";
           lit "0%" ] in
  (writable out pdf_path = true ->
   forallb (writable out) (metadata_lines md) = true ->
   run_on unicode_isalnum out reader pdf_path w
     = (Ok tt, tick (emit printed w))) /\
  List.filter (startswith (lit "Text quality ratio: ")) printed = [] /\
  (exists lines,
     stdout (run_on unicode_isalnum out reader pdf_path w).2
       = stdout w ++ lines /\
     List.filter (startswith (lit "Text quality ratio: ")) lines = []).
Proof.
  intros first_page reader printed.
  assert (Hnone : List.filter (startswith (lit "Text quality ratio: "))
                    printed = []).
  { unfold printed, header_lines, metadata_lines.
    destruct md as [m|]; [destruct (size m =? 0)%nat|]; reflexivity. }
  split; [|split; [exact Hnone|]].
  - intros Hpath Hlines.
    by rewrite (run_text unicode_isalnum out unit (fun _ => Ok tt)
                  (fun _ => Ok reader) pdf_path tt reader (first_page :: ps)
                  enc md eq_refl eq_refl eq_refl eq_refl eq_refl Hpath Hlines
                  first_page ps [] w eq_refl eq_refl eq_refl).
  - apply run_without; [|done].
    rewrite (script_text unicode_isalnum unit (fun _ => Ok tt)
               (fun _ => Ok reader) pdf_path tt reader (first_page :: ps)
               enc md eq_refl eq_refl eq_refl eq_refl eq_refl
               first_page ps [] eq_refl eq_refl).
    cbn [fst]. rewrite prints_app. cbn [prints].
    rewrite !prints_map_Print, <- app_assoc. exact Hnone.
Qed.

(** X11: only the first page is read.  Replacing every other page by any
    page at all changes nothing in the run: not the output (the page count
    stays), not the result, not the number of [extract_text] calls. *)
Theorem only_first_page_is_read (unicode_isalnum : codepoint -> bool)
    (out : stream) (pdf_path : str) (p : PageObject) (ps : list PageObject)
    (g : PageObject -> PageObject) (enc : result bool)
    (md : result (option (gmap str str))) (w : world) :
  run_on unicode_isalnum out
      {| pages := Ok (p :: ps); is_encrypted := enc; metadata := md |}
      pdf_path w
    = run_on unicode_isalnum out
        {| pages := Ok (p :: map g ps); is_encrypted := enc; metadata := md |}
        pdf_path w.
Proof.
  rewrite !analyze_pdf_script. unfold script. cbv beta iota.
  cbn [pages is_encrypted metadata length]. by rewrite length_map.
Qed.

(** X12: of a non-empty metadata mapping only the keys [/PDF], [/Creator]
    and [/Producer] are looked at: two non-empty mappings that agree on
    these three keys give the same run. *)
Theorem unexamined_metadata_keys_are_ignored
    (unicode_isalnum : codepoint -> bool) (out : stream) (pdf_path : str)
    (ps : list PageObject) (enc : bool) (m1 m2 : gmap str str) (w : world) :
  m1 <> ∅ ->
  m2 <> ∅ ->
  m1 !! lit "/PDF" = m2 !! lit "/PDF" ->
  m1 !! lit "/Creator" = m2 !! lit "/Creator" ->
  m1 !! lit "/Producer" = m2 !! lit "/Producer" ->
  run_on unicode_isalnum out
      {| pages := Ok ps; is_encrypted := Ok enc; metadata := Ok (Some m1) |}
      pdf_path w
    = run_on unicode_isalnum out
        {| pages := Ok ps; is_encrypted := Ok enc; metadata := Ok (Some m2) |}
        pdf_path w.
Proof.
  intros Hne1 Hne2 Hpdf Hcreator Hproducer.
  assert (Hlines : metadata_lines (Some m1) = metadata_lines (Some m2)).
  { unfold metadata_lines.
    assert (H1 : (size m1 =? 0)%nat = false).
    { apply Nat.eqb_neq. by rewrite map_size_empty_iff. }
    assert (H2 : (size m2 =? 0)%nat = false).
    { apply Nat.eqb_neq. by rewrite map_size_empty_iff. }
    by rewrite H1, H2, Hpdf, Hcreator, Hproducer. }
  rewrite !analyze_pdf_script. unfold script. cbv beta iota.
  cbn [pages is_encrypted metadata]. by rewrite Hlines.
Qed.

(** X13: the script treats an encrypted document like any other.  Two
    readers that differ in the encryption flag only give, on a stream that
    can encode the path, runs that differ in the fourth line only,
    [Is Encrypted: True] against [Is Encrypted: False]; on a stream that
    cannot, the two runs are the same. *)
Theorem encryption_flag_changes_one_line (unicode_isalnum : codepoint -> bool)
    (out : stream) (pdf_path : str) (ps : list PageObject)
    (md : result (option (gmap str str))) (w : world) :
  let reader enc :=
    {| pages := Ok ps; is_encrypted := Ok enc; metadata := md |} in
  let before :=
    [ lit "=== PDF Analysis ===";
      lit "File: " ++ pdf_path;
      lit "Pages: " ++ str_of_int (Z.of_nat (length ps)) ] in
  if writable out pdf_path then
    exists rest,
      stdout (run_on unicode_isalnum out (reader true) pdf_path w).2 =
        stdout w ++ before ++ [lit "Is Encrypted: True"] ++ rest /\
      stdout (run_on unicode_isalnum out (reader false) pdf_path w).2 =
        stdout w ++ before ++ [lit "Is Encrypted: False"] ++ rest /\
      extract_text_calls
          (run_on unicode_isalnum out (reader true) pdf_path w).2 =
        extract_text_calls
          (run_on unicode_isalnum out (reader false) pdf_path w).2
  else
    run_on unicode_isalnum out (reader true) pdf_path w
      = run_on unicode_isalnum out (reader false) pdf_path w.
Proof.
  intros reader before.
  set (tail := match md with
               | Raise e => ([], Raise e)
               | Ok md' =>
                   (map Print (metadata_lines md')
                      ++ (page_events unicode_isalnum ps).1,
                    (page_events unicode_isalnum ps).2)
               end).
  assert (Hscript : forall enc,
            script unicode_isalnum unit (fun _ => Ok tt)
                (fun _ => Ok (reader enc)) pdf_path =
              (map Print (header_lines pdf_path (Z.of_nat (length ps)) enc)
                 ++ tail.1, tail.2)).
  { intros enc. unfold script, tail, page_events. cbv beta iota.
    cbn [reader pages is_encrypted metadata].
    destruct md as [md'|e]; [|by rewrite app_nil_r].
    by destruct ps as [|p ps']; [|destruct (extract_text p)];
      rewrite ?map_app, <- ?app_assoc. }
  destruct (writable out pdf_path) eqn:Hpath.
  - destruct (handled_frame out tail.1 tail.2) as (r & lines & n & Hrun).
    exists lines.
    rewrite !(run_split _ _ _ _ _ _ _ _ _ _ (Hscript _))
      by (by rewrite writable_header_lines).
    rewrite !Hrun. unfold header_lines, before. cbn [snd stdout emit].
    by rewrite <- !app_assoc.
  - rewrite !analyze_pdf_script, !Hscript. unfold header_lines.
    cbn [fst snd map app play].
    change (writable out (lit "=== PDF Analysis ===")) with true.
    change (writable out (lit "File: " ++ pdf_path))
      with (writable out pdf_path).
    by rewrite Hpath.
Qed.

(** ** Runs on the sample documents *)

(** C1, the claim as written fails: on a Latin-1 terminal, a path in
    Chinese that does not exist.  [open] raises, its description quotes the
    path, the handler's [print] cannot encode it: nothing is printed and
    [analyze_pdf] raises to its caller. *)
Lemma analyze_pdf_can_raise :
  Demo.open_rb Demo.name_missing =
    Raise (Exception (lit "[Errno 2] No such file or directory: '"
                        ++ Demo.name_missing ++ lit "'")) /\
  demo_run Demo.latin1 Demo.name_missing =
    (Raise (Exception (lit "'latin-1' codec can't encode characters in position 59-60: ordinal not in range(256)")),
     Demo.w0) /\
  stdout (demo_run Demo.latin1 Demo.name_missing).2 = [].
Proof. repeat split; vm_compute; reflexivity. Qed.


(** C5, the claim as written fails: an information dictionary whose
    creator is written in Chinese, on a Latin-1 terminal.  The mapping is
    not empty, and the run prints one metadata field line, not three. *)
Lemma metadata_line_can_fail :
  metadata Demo.cjk = Ok (Some Demo.info_cjk) /\
  Demo.info_cjk <> ∅ /\
  demo_run Demo.latin1 (lit "cjk.pdf") =
    (Ok tt,
     World (Demo.header "cjk.pdf" "1"
              ++ [ lit "PDF Version: Unknown";
                   lit "Error analyzing PDF: 'latin-1' codec can't encode characters in position 9-10: ordinal not in range(256)" ])
       0) /\
  List.filter is_metadata_line
      (stdout (demo_run Demo.latin1 (lit "cjk.pdf")).2)
    = [lit "PDF Version: Unknown"].
Proof. repeat split; try (vm_compute; reflexivity). by vm_compute. Qed.

(** C6, the claim as written fails: a document without pages under a
    Chinese file name, on a Latin-1 terminal.  The run fails at the
    [File:] line and never prints [No pages found]. *)
Lemma no_pages_line_can_be_missing :
  Demo.PdfReader_new Demo.name_cjk = Ok Demo.empty /\
  pages Demo.empty = Ok [] /\
  demo_run Demo.latin1 Demo.name_cjk =
    (Ok tt,
     World [ lit "=== PDF Analysis ===";
             lit "Error analyzing PDF: 'latin-1' codec can't encode character '\u7a7a' in position 6: ordinal not in range(256)" ]
       0) /\
  ~ In (lit "No pages found") (stdout (demo_run Demo.latin1 Demo.name_cjk).2).
Proof.
  repeat split; try (vm_compute; reflexivity).
  vm_compute. intros [H|[H|[]]]; discriminate H.
Qed.

(** C7, the claim as written fails: a document with an empty information
    dictionary under a file name with an undecodable byte, on a UTF-8
    terminal.  The run fails at the [File:] line and never prints
    [No metadata found]. *)
Lemma no_metadata_line_can_be_missing :
  Demo.PdfReader_new Demo.name_surrogate = Ok Demo.blank /\
  metadata Demo.blank = Ok (Some ∅) /\
  demo_run Demo.utf8 Demo.name_surrogate =
    (Ok tt,
     World [ lit "=== PDF Analysis ===";
             lit "Error analyzing PDF: 'utf-8' codec can't encode character '\udcff' in position 7: surrogates not allowed" ]
       0) /\
  ~ In (lit "No metadata found")
      (stdout (demo_run Demo.utf8 Demo.name_surrogate).2).
Proof.
  repeat split; try (vm_compute; reflexivity).
  vm_compute. intros [H|[H|[]]]; discriminate H.
Qed.

(** A path that does not exist, on a UTF-8 terminal: one line, the error
    line.  The page whose failure has a lone surrogate in its description:
    the run raises. *)
Lemma analyze_pdf_reports_failure_witness :
  demo_run Demo.utf8 (lit "missing.pdf") =
    (Ok tt,
     World [ lit "Error analyzing PDF: [Errno 2] No such file or directory: 'missing.pdf'" ]
       0) /\
  (demo_run Demo.utf8 (lit "garbled.pdf")).1 =
    Raise (Exception (lit "'utf-8' codec can't encode character '\ud800' in position 25: surrogates not allowed")).
Proof.
  split.
  - destruct (analyze_pdf_reports_failure Demo.unicode_isalnum Demo.utf8 str
                Demo.open_rb Demo.PdfReader_new (lit "missing.pdf")
                (Exception (lit "[Errno 2] No such file or directory: 'missing.pdf'"))
                Demo.w0 Demo.w0)
      as (before & _ & _ & Hprinted & _).
    + vm_compute. reflexivity.
    + destruct Hprinted as (Hrun & _); [vm_compute; reflexivity|].
      rewrite Hrun. vm_compute. reflexivity.
  - destruct (analyze_pdf_reports_failure Demo.unicode_isalnum Demo.utf8 str
                Demo.open_rb Demo.PdfReader_new (lit "garbled.pdf")
                Demo.bad_stream Demo.w0
                (demo_body Demo.utf8 (lit "garbled.pdf")).2)
      as (before & _ & _ & _ & Hraised).
    + vm_compute. reflexivity.
    + rewrite Hraised; [|vm_compute; reflexivity].
      vm_compute. reflexivity.
Defined.


(** The text [abc123  ###]: 6 of 11 characters, 54.5%. *)
Lemma quality_ratio_line_witness :
  exists q,
    int_truediv 6 11 = Ok q /\
    lit "Text quality ratio: " ++ format_1f (float_mul_int q 100) ++ lit "%"
      = lit "Text quality ratio: 54.5%" /\
    last (stdout (demo_run Demo.utf8 (lit "abc.pdf")).2)
      = Some (lit "Text quality ratio: 54.5%").
Proof.
  destruct (quality_ratio_line Demo.unicode_isalnum Demo.utf8 str Demo.open_rb
              Demo.PdfReader_new (lit "abc.pdf") (lit "abc.pdf") Demo.abc
              (Demo.page (Ok (lit "abc123  ###"))) [] false (Some Demo.info)
              (lit "abc123  ###") Demo.w0)
    as (q & Hq & _ & Hrun & Hexample).
  - vm_compute. reflexivity.
  - vm_compute. reflexivity.
  - reflexivity.
  - reflexivity.
  - reflexivity.
  - reflexivity.
  - vm_compute. lia.
  - destruct (Hexample eq_refl) as (_ & _ & Hline).
    exists q. split; [exact Hq|]. split; [exact Hline|].
    rewrite Hrun; [|vm_compute; reflexivity..].
    cbn [snd stdout tick emit]. rewrite Hline.
    vm_compute. reflexivity.
Defined.

(** 250 characters outside ASCII on a UTF-8 terminal: the preview shows the
    first 200. *)
Lemma preview_line_truncates_witness :
  In (lit "First page text preview: "
        ++ repeat 233%N 150 ++ repeat 8364%N 50 ++ lit "...")
     (stdout (demo_run Demo.utf8 (lit "long.pdf")).2).
Proof.
  destruct (preview_line_truncates Demo.unicode_isalnum Demo.utf8 str
              Demo.open_rb Demo.PdfReader_new (lit "long.pdf") (lit "long.pdf")
              Demo.long (Demo.page (Ok Demo.long_text)) [] false None
              Demo.long_text Demo.w0)
    as (first & rest & Htext & Hlen & _ & _ & Hrun).
  - vm_compute. reflexivity.
  - vm_compute. reflexivity.
  - reflexivity.
  - reflexivity.
  - reflexivity.
  - reflexivity.
  - vm_compute. lia.
  - assert (Hfirst : first = repeat 233%N 150 ++ repeat 8364%N 50).
    { rewrite <- (take_app_length' first rest 200) by (symmetry; exact Hlen).
      rewrite <- Htext. vm_compute. reflexivity. }
    subst first. rewrite Hrun; [|vm_compute; reflexivity..].
    cbn [snd stdout tick emit Demo.w0].
    rewrite !in_app_iff. right. right. simpl. tauto.
Defined.

(** The text [#@]: two characters, none of them whitespace, count 0. *)
Lemma non_whitespace_line_counts_alnum_witness :
  In (lit "Non-whitespace characters: 0")
     (stdout (demo_run Demo.utf8 (lit "symbols.pdf")).2) /\
  length (List.filter (fun c => negb (ascii_isspace c)) (lit "#@")) = 2%nat.
Proof.
  destruct (non_whitespace_line_counts_alnum Demo.unicode_isalnum Demo.utf8
              str Demo.open_rb Demo.PdfReader_new (lit "symbols.pdf")
              (lit "symbols.pdf") Demo.symbols (Demo.page (Ok (lit "#@"))) []
              false (Some Demo.info) (lit "#@") Demo.w0)
    as (_ & Hrun & _ & Hspace & Hline).
  - vm_compute. reflexivity.
  - vm_compute. reflexivity.
  - reflexivity.
  - reflexivity.
  - reflexivity.
  - reflexivity.
  - split; [|by rewrite Hspace].
    rewrite Hrun, (Hline eq_refl); [|vm_compute; reflexivity..].
    cbn [snd stdout tick emit Demo.w0].
    rewrite !in_app_iff. right. right. simpl. tauto.
Defined.

(** 200 characters, and the same 200 followed by [tail]: one preview line
    for both. *)
Lemma preview_line_always_has_dots_witness :
  In (lit "First page text preview: " ++ Demo.text_200 ++ lit "...")
     (stdout (demo_run Demo.utf8 (lit "x200.pdf")).2) /\
  In (lit "First page text preview: " ++ Demo.text_200 ++ lit "...")
     (stdout (demo_run Demo.utf8 (lit "x204.pdf")).2).
Proof.
  destruct (preview_line_always_has_dots Demo.unicode_isalnum Demo.utf8 str
              Demo.open_rb Demo.PdfReader_new (lit "x200.pdf") (lit "x200.pdf")
              Demo.x200 (Demo.page (Ok Demo.text_200)) [] false None
              Demo.text_200 Demo.w0)
    as (_ & Hrun & Hsame).
  - vm_compute. reflexivity.
  - vm_compute. reflexivity.
  - reflexivity.
  - reflexivity.
  - reflexivity.
  - reflexivity.
  - vm_compute. lia.
  - split.
    + rewrite Hrun; [|vm_compute; reflexivity..].
      cbn [snd stdout tick emit Demo.w0].
      rewrite !in_app_iff. right. right. simpl. tauto.
    + apply (Hsame (lit "x204.pdf") (lit "x204.pdf") Demo.x204
               (Demo.page (Ok Demo.text_204)) [] false None (lit "tail")
               Demo.w0).
      * vm_compute. reflexivity.
      * vm_compute. reflexivity.
      * reflexivity.
      * reflexivity.
      * reflexivity.
      * reflexivity.
      * vm_compute. reflexivity.
      * vm_compute. reflexivity.
      * vm_compute. reflexivity.
      * vm_compute. reflexivity.
Defined.

(** An information dictionary with [/Producer] only. *)
Lemma metadata_fields_default_to_unknown_witness :
  exists rest,
    stdout (demo_run Demo.utf8 (lit "abc.pdf")).2 =
      Demo.header "abc.pdf" "1"
        ++ [ lit "PDF Version: Unknown";
             lit "Creator: Unknown";
             lit "Producer: pdfTeX-1.40" ] ++ rest /\
    ~ In (lit "No metadata found") rest.
Proof.
  destruct (metadata_fields_default_to_unknown Demo.unicode_isalnum Demo.utf8
              str Demo.open_rb Demo.PdfReader_new (lit "abc.pdf")
              (lit "abc.pdf") Demo.abc [Demo.page (Ok (lit "abc123  ###"))]
              false Demo.info Demo.w0)
    as (rest & Hout & _ & Hnot & Hcreator).
  - vm_compute. reflexivity.
  - vm_compute. reflexivity.
  - reflexivity.
  - reflexivity.
  - reflexivity.
  - by vm_compute.
  - vm_compute. reflexivity.
  - vm_compute. reflexivity.
  - exists rest. split.
    + rewrite Hout, Hcreator by (vm_compute; reflexivity).
      vm_compute. reflexivity.
    + intros Hin. apply Hnot. rewrite !in_app_iff. by right; right.
Defined.

(** No pages and no metadata. *)
Lemma no_pages_found_line_witness :
  demo_run Demo.utf8 (lit "empty.pdf") =
    (Ok tt,
     World (Demo.header "empty.pdf" "0"
              ++ [ lit "No metadata found"; lit "No pages found" ]) 0).
Proof.
  destruct (no_pages_found_line Demo.unicode_isalnum Demo.utf8 str
              Demo.open_rb Demo.PdfReader_new (lit "empty.pdf")
              (lit "empty.pdf") Demo.empty false None Demo.w0)
    as (_ & _ & Hrun).
  - vm_compute. reflexivity.
  - vm_compute. reflexivity.
  - reflexivity.
  - reflexivity.
  - reflexivity.
  - destruct Hrun as (Hrun & _); [vm_compute; reflexivity..|].
    rewrite Hrun. vm_compute. reflexivity.
Defined.

(** An empty information dictionary. *)
Lemma no_metadata_found_line_witness :
  exists rest,
    stdout (demo_run Demo.utf8 (lit "blank.pdf")).2 =
      Demo.header "blank.pdf" "1" ++ [ lit "No metadata found" ] ++ rest /\
    ~ In (lit "No metadata found") rest.
Proof.
  destruct (no_metadata_found_line Demo.unicode_isalnum Demo.utf8 str
              Demo.open_rb Demo.PdfReader_new (lit "blank.pdf")
              (lit "blank.pdf") Demo.blank [Demo.page (Ok [])] false (Some ∅)
              Demo.w0)
    as (_ & Hrun).
  - vm_compute. reflexivity.
  - vm_compute. reflexivity.
  - reflexivity.
  - reflexivity.
  - reflexivity.
  - right. reflexivity.
  - destruct Hrun as (rest & Hout & Hnot); [vm_compute; reflexivity|].
    exists rest. split.
    + rewrite Hout. vm_compute. reflexivity.
    + intros Hin. apply Hnot. rewrite in_app_iff. by right.
Defined.

(** A path that is not in the file system. *)
Lemma open_or_parse_failure_prints_only_error_witness :
  demo_run Demo.utf8 (lit "nowhere.pdf") =
    (Ok tt,
     World [ lit "Error analyzing PDF: [Errno 2] No such file or directory: 'nowhere.pdf'" ]
       0).
Proof.
  rewrite (open_or_parse_failure_prints_only_error Demo.unicode_isalnum
             Demo.utf8 str Demo.open_rb Demo.PdfReader_new (lit "nowhere.pdf")
             (Exception
                (lit "[Errno 2] No such file or directory: 'nowhere.pdf'"))
             Demo.w0).
  - vm_compute. reflexivity.
  - left. vm_compute. reflexivity.
Defined.

(** One page, not encrypted. *)
Lemma header_lines_come_first_witness :
  exists rest,
    stdout (demo_run Demo.utf8 (lit "abc.pdf")).2 =
      Demo.header "abc.pdf" "1" ++ rest.
Proof.
  destruct (header_lines_come_first Demo.unicode_isalnum Demo.utf8 str
              Demo.open_rb Demo.PdfReader_new (lit "abc.pdf") (lit "abc.pdf")
              Demo.abc [Demo.page (Ok (lit "abc123  ###"))] false Demo.w0)
    as (rest & Hout).
  - vm_compute. reflexivity.
  - vm_compute. reflexivity.
  - reflexivity.
  - reflexivity.
  - vm_compute. reflexivity.
  - exists rest. rewrite Hout. vm_compute. reflexivity.
Defined.

(** The page count of a locked document cannot be read. *)
Lemma page_count_failure_after_banner_witness :
  run_on Demo.unicode_isalnum Demo.utf8 Faulty.locked (lit "locked.pdf")
      Demo.w0 =
    (Ok tt,
     World [ lit "=== PDF Analysis ===";
             lit "File: locked.pdf";
             lit "Error analyzing PDF: File has not been decrypted" ] 0).
Proof.
  rewrite (page_count_failure_after_banner Demo.unicode_isalnum Demo.utf8 unit
             (fun _ => Ok tt) (fun _ => Ok Faulty.locked) (lit "locked.pdf")
             tt Faulty.locked (Exception (lit "File has not been decrypted"))
             Demo.w0).
  - vm_compute. reflexivity.
  - reflexivity.
  - reflexivity.
  - reflexivity.
  - vm_compute. reflexivity.
Defined.

(** Two pages, metadata that cannot be read. *)
Lemma metadata_failure_skips_first_page_witness :
  run_on Demo.unicode_isalnum Demo.utf8 Faulty.no_info (lit "noinfo.pdf")
      Demo.w0 =
    (Ok tt,
     World (Demo.header "noinfo.pdf" "2"
              ++ [ lit "Error analyzing PDF: trailer cannot be read" ]) 0).
Proof.
  destruct (metadata_failure_skips_first_page Demo.unicode_isalnum Demo.utf8
              unit (fun _ => Ok tt) (fun _ => Ok Faulty.no_info)
              (lit "noinfo.pdf") tt Faulty.no_info
              [Demo.page (Ok (lit "abc")); Demo.page (Ok (lit "def"))] false
              (Exception (lit "trailer cannot be read")) Demo.w0)
    as [Hrun _].
  - reflexivity.
  - reflexivity.
  - reflexivity.
  - reflexivity.
  - reflexivity.
  - vm_compute. reflexivity.
  - rewrite Hrun. vm_compute. reflexivity.
Defined.

(** The text [#@]. *)
Lemma no_alnum_gives_zero_ratio_witness :
  last (stdout (demo_run Demo.utf8 (lit "symbols.pdf")).2)
    = Some (lit "Text quality ratio: 0.0%").
Proof.
  destruct (no_alnum_gives_zero_ratio Demo.unicode_isalnum Demo.utf8 str
              Demo.open_rb Demo.PdfReader_new (lit "symbols.pdf")
              (lit "symbols.pdf") Demo.symbols (Demo.page (Ok (lit "#@"))) []
              false (Some Demo.info) (lit "#@") Demo.w0)
    as (_ & Hrun).
  - vm_compute. reflexivity.
  - vm_compute. reflexivity.
  - reflexivity.
  - reflexivity.
  - reflexivity.
  - reflexivity.
  - discriminate.
  - reflexivity.
  - rewrite Hrun; [|vm_compute; reflexivity..]. vm_compute. reflexivity.
Defined.

(** 200 times the letter [x]. *)
Lemma all_alnum_gives_full_ratio_witness :
  last (stdout (demo_run Demo.utf8 (lit "x200.pdf")).2)
    = Some (lit "Text quality ratio: 100.0%").
Proof.
  destruct (all_alnum_gives_full_ratio Demo.unicode_isalnum Demo.utf8 str
              Demo.open_rb Demo.PdfReader_new (lit "x200.pdf")
              (lit "x200.pdf") Demo.x200 (Demo.page (Ok Demo.text_200)) []
              false None Demo.text_200 Demo.w0)
    as (_ & Hrun).
  - vm_compute. reflexivity.
  - vm_compute. reflexivity.
  - reflexivity.
  - reflexivity.
  - reflexivity.
  - reflexivity.
  - discriminate.
  - vm_compute. reflexivity.
  - rewrite Hrun; [|vm_compute; reflexivity..]. vm_compute. reflexivity.
Defined.

(** The file named in the program is not in the sample file system. *)
Lemma main_analyzes_fixed_path_witness :
  main Demo.unicode_isalnum Demo.utf8 str Demo.open_rb Demo.PdfReader_new
      Demo.w0 =
    (Ok tt,
     World [ lit "Error analyzing PDF: [Errno 2] No such file or directory: '8.25.25IPanalysis.md.pdf'" ]
       0).
Proof.
  destruct (main_analyzes_fixed_path Demo.unicode_isalnum Demo.utf8 str
              Demo.open_rb Demo.PdfReader_new Demo.w0) as [Hmissing _].
  rewrite (Hmissing
             (Exception
                (lit "[Errno 2] No such file or directory: '8.25.25IPanalysis.md.pdf'"))).
  - vm_compute. reflexivity.
  - vm_compute. reflexivity.
Defined.

(** A [/Title] more or less makes no difference. *)
Lemma unexamined_metadata_keys_are_ignored_witness :
  run_on Demo.unicode_isalnum Demo.utf8
      {| pages := Ok [Demo.page (Ok (lit "abc"))];
         is_encrypted := Ok false;
         metadata := Ok (Some Demo.info) |}
      (lit "a.pdf") Demo.w0
    = run_on Demo.unicode_isalnum Demo.utf8
        {| pages := Ok [Demo.page (Ok (lit "abc"))];
           is_encrypted := Ok false;
           metadata :=
             Ok (Some (<[lit "/Title" := lit "Report"]> Demo.info)) |}
        (lit "a.pdf") Demo.w0.
Proof.
  apply (unexamined_metadata_keys_are_ignored Demo.unicode_isalnum Demo.utf8
           (lit "a.pdf") [Demo.page (Ok (lit "abc"))] false Demo.info
           (<[lit "/Title" := lit "Report"]> Demo.info) Demo.w0).
  - by vm_compute.
  - by vm_compute.
  - vm_compute. reflexivity.
  - vm_compute. reflexivity.
  - vm_compute. reflexivity.
Defined.

(** A page whose text is a lone surrogate, on a UTF-8 terminal. *)
Lemma unencodable_preview_is_reported_witness :
  demo_run Demo.utf8 (lit "lone.pdf") =
    (Ok tt,
     World (Demo.header "lone.pdf" "1"
              ++ [ lit "No metadata found";
                   lit "First page text length: 1";
                   lit "Error analyzing PDF: 'utf-8' codec can't encode character '\ud800' in position 25: surrogates not allowed" ])
       1).
Proof.
  rewrite (unencodable_preview_is_reported Demo.unicode_isalnum Demo.utf8 str
             Demo.open_rb Demo.PdfReader_new (lit "lone.pdf") (lit "lone.pdf")
             Demo.lone (Demo.page (Ok Demo.lone_surrogate)) [] false None
             Demo.lone_surrogate Demo.w0).
  - vm_compute. reflexivity.
  - vm_compute. reflexivity.
  - vm_compute. reflexivity.
  - reflexivity.
  - reflexivity.
  - reflexivity.
  - reflexivity.
  - vm_compute. reflexivity.
  - vm_compute. reflexivity.
  - vm_compute. reflexivity.
Defined.
